(** * SilverLine: payment processing and courier adapter

    A shallow embedding of the order-fulfilment code of the storefront:

    - the payment service ([createPaymentOrder], [processPayment],
      [getPaymentDetails], [refundPayment]), which talks to the database
      through Prisma and to two remote services;
    - the courier adapter [DelhiveryService.createShipment] of
      [lib/delhivery.ts].

    The database is a record of tables (lists of rows, in storage order).
    Asynchronous calls are sequential here: every [await] is a bind of the
    [Action] monad, which threads the database and carries a thrown value.
    A write that happened before a throw stays written: there is no
    transaction in the source.  Console output is not modelled. *)

From Stdlib Require Import ZArith List String Bool Lia.
From Stdlib Require Import DecimalString.
Import ListNotations.
Local Open Scope string_scope.
Local Open Scope Z_scope.
Set Warnings "-register-all".

(* ================================================================== *)
(** ** JavaScript values *)
(* ================================================================== *)

(** The values that JSON data (a parsed response body, a Json column) can
    hold, plus [undefined], the result of reading a missing property.
    Numbers are integers: fractional numbers behave like non-zero ones
    wherever the code looks at them. *)
Inductive JValue : Type :=
| JUndefined
| JNull
| JBool (b : bool)
| JNum (n : Z)
| JStr (s : string)
| JArr (elems : list JValue)
| JObj (props : list (string * JValue)).

(** What a [throw] carries: an [Error] instance with its message, or any
    other value. *)
Inductive Thrown : Type :=
| ThrownError (message : string)
| ThrownValue (v : JValue).

(** [error instanceof Error ? error.message : fallback] *)
Definition error_message_or (fallback : string) (e : Thrown) : string :=
  match e with
  | ThrownError m => m
  | ThrownValue _ => fallback
  end.

(** ToBoolean. *)
Definition js_truthy (v : JValue) : bool :=
  match v with
  | JUndefined | JNull => false
  | JBool b => b
  | JNum n => negb (n =? 0)
  | JStr s => negb (s =? "")%string
  | JArr _ | JObj _ => true
  end.

(** Truthiness of an optional string ([string | undefined]). *)
Definition truthy_string (o : option string) : bool :=
  match o with
  | Some s => negb (s =? "")%string
  | None => false
  end.

Definition of_optional_string (o : option string) : JValue :=
  match o with
  | Some s => JStr s
  | None => JUndefined
  end.

Definition string_of_nat (n : nat) : string :=
  NilZero.string_of_uint (Nat.to_uint n).

Definition string_of_Z (z : Z) : string :=
  NilZero.string_of_int (Z.to_int z).

(** Own properties of an object, first binding of a key. *)
Fixpoint assoc_get (k : string) (props : list (string * JValue)) : JValue :=
  match props with
  | [] => JUndefined
  | (k', v) :: rest => if (k =? k')%string then v else assoc_get k rest
  end.

(** Writing a property in an object literal: an existing key keeps its
    place, a new key goes last. *)
Fixpoint assoc_set (k : string) (v : JValue) (props : list (string * JValue))
  : list (string * JValue) :=
  match props with
  | [] => [(k, v)]
  | (k', v') :: rest =>
      if (k =? k')%string then (k, v) :: rest
      else (k', v') :: assoc_set k v rest
  end.

Fixpoint indexed_from {A : Type} (i : nat) (f : A -> JValue) (l : list A)
  : list (string * JValue) :=
  match l with
  | [] => []
  | x :: rest => (string_of_nat i, f x) :: indexed_from (S i) f rest
  end.

Definition char_value (c : Ascii.ascii) : JValue := JStr (String c EmptyString).

(** Object spread [{...v}]: the own enumerable properties of [v]; nothing
    for [null], [undefined], numbers and booleans. *)
Definition js_spread (v : JValue) : list (string * JValue) :=
  match v with
  | JObj props => props
  | JArr elems => indexed_from 0%nat (fun x => x) elems
  | JStr s => indexed_from 0%nat char_value (list_ascii_of_string s)
  | _ => []
  end.

Definition is_undefined (v : JValue) : bool :=
  match v with
  | JUndefined => true
  | _ => false
  end.

(** An object handed to a Json column: properties whose value is
    [undefined] are not stored. *)
Definition json_object (props : list (string * JValue)) : JValue :=
  JObj (filter (fun kv => negb (is_undefined (snd kv))) props).

(* ================================================================== *)
(** ** The database *)
(* ================================================================== *)

(** [PaymentStatus.tsx]: ['PENDING' | 'COMPLETED' | 'FAILED' | 'REFUNDED']. *)
Inductive PaymentStatus : Type :=
| PENDING | COMPLETED | FAILED | REFUNDED.

(** Modelled from the spec: the values of [Order.status].  The column is
    TEXT with default ['PENDING']; the enumeration itself is not among the
    sources, the service writes ['CONFIRMED'], ['FAILED'] and
    ['REFUNDED']. *)
Inductive OrderStatus : Type :=
| ORDER_PENDING | ORDER_CONFIRMED | ORDER_FAILED | ORDER_REFUNDED.

Definition PaymentStatus_eqb (a b : PaymentStatus) : bool :=
  match a, b with
  | PENDING, PENDING | COMPLETED, COMPLETED
  | FAILED, FAILED | REFUNDED, REFUNDED => true
  | _, _ => false
  end.

(** Rows carry the columns the service reads or writes, and the keys.
    [createdAt]/[updatedAt] and the descriptive columns are left out. *)
Record Product : Type := mkProduct {
  product_id : Z;
  stock : Z
}.

Record OrderItem : Type := mkOrderItem {
  item_id : Z;
  item_orderId : Z;
  item_productId : Z;
  quantity : Z
}.

Record Order : Type := mkOrder {
  order_id : Z;
  orderNumber : string;
  order_status : OrderStatus;
  totalAmount : Z
}.

Record Payment : Type := mkPayment {
  payment_id : Z;
  payment_orderId : Z;
  paymentMethod : string;
  gateway : option string;
  amount : Z;
  currency : string;
  payment_status : PaymentStatus;
  transactionId : option string;
  gatewayResponse : JValue;
  paidAt : option Z
}.

(** The state the service acts on: the four tables, and the log of the
    shipment-creation calls issued so far (one order id per call). *)
Record World : Type := mkWorld {
  orders : list Order;
  orderItems : list OrderItem;
  payments : list Payment;
  products : list Product;
  shipmentCalls : list Z
}.

Definition with_orders (w : World) (t : list Order) : World :=
  mkWorld t (orderItems w) (payments w) (products w) (shipmentCalls w).

Definition with_payments (w : World) (t : list Payment) : World :=
  mkWorld (orders w) (orderItems w) t (products w) (shipmentCalls w).

Definition with_products (w : World) (t : list Product) : World :=
  mkWorld (orders w) (orderItems w) (payments w) t (shipmentCalls w).

Definition log_shipmentCall (w : World) (orderId : Z) : World :=
  mkWorld (orders w) (orderItems w) (payments w) (products w)
          (shipmentCalls w ++ [orderId]).

(** The row with primary key [id]. *)
Definition row_by_id {A : Type} (key : A -> Z) (id : Z) (rows : list A)
  : option A :=
  find (fun r => key r =? id) rows.

(** [UPDATE ... WHERE id = ?]: the changed row and the new table, or
    nothing when no row has that key. *)
Fixpoint update_row {A : Type} (key : A -> Z) (id : Z) (f : A -> A)
  (rows : list A) : option (A * list A) :=
  match rows with
  | [] => None
  | r :: rest =>
      if key r =? id then Some (f r, f r :: rest)
      else match update_row key id f rest with
           | Some (r', rest') => Some (r', r :: rest')
           | None => None
           end
  end.

(** AUTOINCREMENT: one more than the largest key in use. *)
Definition next_id {A : Type} (key : A -> Z) (rows : list A) : Z :=
  1 + fold_right (fun r m => Z.max (key r) m) 0 rows.

Definition payment_by_id (w : World) (id : Z) : option Payment :=
  row_by_id payment_id id (payments w).

Definition order_by_id (w : World) (id : Z) : option Order :=
  row_by_id order_id id (orders w).

Definition product_by_id (w : World) (id : Z) : option Product :=
  row_by_id product_id id (products w).

Definition items_of_order (w : World) (orderId : Z) : list OrderItem :=
  filter (fun it => item_orderId it =? orderId) (orderItems w).

(* ================================================================== *)
(** ** The environment of a call *)
(* ================================================================== *)

(** The database operations the service issues; the environment may make
    any of them throw (a lost connection, a constraint, a timeout). *)
Inductive DbOp : Type :=
| OrderFindUnique (id : Z)
| OrderUpdate (id : Z)
| PaymentFindFirst
| PaymentFindUnique (id : Z)
| PaymentCreate
| PaymentUpdate (id : Z)
| ProductUpdate (id : Z).

(** What [createDelhiveryShipment] gives back: a result object, or a throw. *)
Inductive ShipmentOutcome : Type :=
| ShipmentResult (success : bool) (trackingNumber : JValue) (error : JValue)
| ShipmentThrew (e : Thrown).

Record RazorpayOrderRequest : Type := mkRazorpayOrderRequest {
  req_amount : Z;
  req_currency : string;
  req_receipt : string;
  req_notes : list (string * string)
}.

(** What [createRazorpayOrder] gives back: [{success:true, order}],
    [{success:false, error}], or a throw. *)
Inductive RazorpayOutcome : Type :=
| RazorpayCreated (order : list (string * JValue))
| RazorpayRefused (error : JValue)
| RazorpayThrew (e : Thrown).

(** Modelled from the spec: the helpers of [lib/razorpay] and
    [lib/services/delhivery], which are imported by the service and are not
    among the sources.  [verifyRazorpayPayment] is a pure check of the
    signature over [orderId|paymentId] that returns a boolean and never
    throws; [createDelhiveryShipment] is a call to the courier whose state
    lives in the courier's system; [createRazorpayOrder] is a call to the
    gateway.  Each is a function of the environment, as are the clock and
    the database faults. *)
Record Env : Type := mkEnv {
  now : Z;
  nowISO : string;
  dbFault : DbOp -> option Thrown;
  verifyRazorpayPayment : option string -> string -> string -> bool;
  createDelhiveryShipment : Z -> ShipmentOutcome;
  createRazorpayOrder : RazorpayOrderRequest -> RazorpayOutcome;
  convertToPaise : Z -> Z;
  generateReceiptId : string -> string
}.

(* ================================================================== *)
(** ** Actions: state passing with throw and catch *)
(* ================================================================== *)

Inductive Outcome (A : Type) : Type :=
| Returned (a : A)
| Threw (e : Thrown).
Arguments Returned {A} a.
Arguments Threw {A} e.

Definition Action (A : Type) : Type := World -> Outcome A * World.

Definition ret {A : Type} (a : A) : Action A := fun w => (Returned a, w).

Definition throw {A : Type} (e : Thrown) : Action A := fun w => (Threw e, w).

Definition bind {A B : Type} (c : Action A) (k : A -> Action B) : Action B :=
  fun w =>
    match c w with
    | (Returned a, w') => k a w'
    | (Threw e, w') => (Threw e, w')
    end.

(** [try { c } catch (e) { h e }] *)
Definition try_catch {A : Type} (c : Action A) (h : Thrown -> Action A)
  : Action A :=
  fun w =>
    match c w with
    | (Returned a, w') => (Returned a, w')
    | (Threw e, w') => h e w'
    end.

Declare Scope action_scope.
Delimit Scope action_scope with action.
Notation "x <- c ;; k" := (bind c (fun x => k))
  (at level 61, c at next level, right associativity) : action_scope.
Notation "c ;;; k" := (bind c (fun _ => k))
  (at level 61, right associativity) : action_scope.
Local Open Scope action_scope.

(** A database operation under the environment's faults. *)
Definition db_call {A : Type} (env : Env) (op : DbOp) (c : Action A)
  : Action A :=
  match dbFault env op with
  | Some e => throw e
  | None => c
  end.

Definition record_not_found : Thrown :=
  ThrownError "An operation failed because it depends on one or more records that were required but not found.".

(* ------------------------------------------------------------------ *)
(** *** Prisma queries *)

(** [where: { orderId, transactionId }]: a filter whose value is
    [undefined] is left out of the query. *)
Definition payment_matches (orderId : Z) (tx : option string) (p : Payment)
  : bool :=
  (payment_orderId p =? orderId) &&
  match tx with
  | None => true
  | Some t =>
      match transactionId p with
      | Some t' => (t' =? t)%string
      | None => false
      end
  end.

Definition payment_findFirst (env : Env) (orderId : Z) (tx : option string)
  : Action (option Payment) :=
  db_call env PaymentFindFirst
    (fun w => (Returned (find (payment_matches orderId tx) (payments w)), w)).

Definition payment_findUnique (env : Env) (id : Z) : Action (option Payment) :=
  db_call env (PaymentFindUnique id)
    (fun w => (Returned (payment_by_id w id), w)).

Definition order_findUnique (env : Env) (id : Z) : Action (option Order) :=
  db_call env (OrderFindUnique id)
    (fun w => (Returned (order_by_id w id), w)).

Definition payment_update (env : Env) (id : Z) (f : Payment -> Payment)
  : Action Payment :=
  db_call env (PaymentUpdate id)
    (fun w =>
       match update_row payment_id id f (payments w) with
       | Some (p, t) => (Returned p, with_payments w t)
       | None => (Threw record_not_found, w)
       end).

(** [order.update] with [include: { orderItems }]: the changed order and
    its items. *)
Definition order_update (env : Env) (id : Z) (f : Order -> Order)
  : Action (Order * list OrderItem) :=
  db_call env (OrderUpdate id)
    (fun w =>
       match update_row order_id id f (orders w) with
       | Some (o, t) =>
           let w' := with_orders w t in
           (Returned (o, items_of_order w' id), w')
       | None => (Threw record_not_found, w)
       end).

Definition product_update (env : Env) (id : Z) (f : Product -> Product)
  : Action Product :=
  db_call env (ProductUpdate id)
    (fun w =>
       match update_row product_id id f (products w) with
       | Some (p, t) => (Returned p, with_products w t)
       | None => (Threw record_not_found, w)
       end).

Definition payment_create (env : Env) (mk : Z -> Payment) : Action Payment :=
  db_call env PaymentCreate
    (fun w =>
       let p := mk (next_id payment_id (payments w)) in
       (Returned p, with_payments w (payments w ++ [p]))).

(* ================================================================== *)
(** ** The payment service *)
(* ================================================================== *)

Record CreatePaymentOrderData : Type := mkCreatePaymentOrderData {
  cpo_orderId : Z;
  cpo_amount : Z;
  cpo_currency : string;
  customerEmail : string;
  customerName : string;
  customerPhone : option string
}.

Record ProcessPaymentData : Type := mkProcessPaymentData {
  orderId : Z;
  data_paymentMethod : string;
  razorpayOrderId : option string;
  razorpayPaymentId : option string;
  razorpaySignature : option string;
  data_amount : Z
}.

(** The object returned by [createPaymentOrder]. *)
Inductive CreatePaymentOrderResult : Type :=
| CreateFailed (error : JValue)
| CreateSucceeded (razorpayOrder : list (string * JValue)) (payment : Payment)
                  (order : Z * string * Z).

(** The object returned by [processPayment]: [{success:false, error}], or
    [{success, payment, order, paymentStatus, message}]. *)
Inductive ProcessPaymentResult : Type :=
| ProcessFailed (error : string)
| ProcessDone (success : bool) (payment : Payment)
              (order : Order * list OrderItem)
              (paymentStatus : PaymentStatus) (message : string).

(** The object returned by [getPaymentDetails]; [payment] is [null] when
    the query finds nothing, and carries its order otherwise. *)
Inductive PaymentDetailsResult : Type :=
| DetailsFound (payment : option (Payment * option Order * list OrderItem))
| DetailsFailed (error : string).

(** The object returned by [refundPayment]. *)
Inductive RefundResult : Type :=
| RefundFailed (error : string)
| RefundDone (message : string).

(** [transactionId: razorpayResult.order.id] for a nullable TEXT column:
    a string is stored, [undefined] and [null] leave the column NULL, any
    other value is refused by the client. *)
Definition text_column (v : JValue) : Outcome (option string) :=
  match v with
  | JStr s => Returned (Some s)
  | JUndefined | JNull => Returned None
  | _ => Threw (ThrownError "Invalid value provided. Expected String or Null.")
  end.

Definition createPaymentOrder_try (env : Env) (data : CreatePaymentOrderData)
  : Action CreatePaymentOrderResult :=
  order <- order_findUnique env (cpo_orderId data) ;;
  match order with
  | None => ret (CreateFailed (JStr "Order not found"))
  | Some order =>
      let receipt := generateReceiptId env (orderNumber order) in
      let request :=
        mkRazorpayOrderRequest
          (convertToPaise env (cpo_amount data))
          (cpo_currency data)
          receipt
          [("orderId", string_of_Z (order_id order));
           ("orderNumber", orderNumber order);
           ("customerEmail", customerEmail data);
           ("customerName", customerName data)] in
      match createRazorpayOrder env request with
      | RazorpayThrew e => throw e
      | RazorpayRefused error => ret (CreateFailed error)
      | RazorpayCreated rzp =>
          match text_column (assoc_get "id" rzp) with
          | Threw e => throw e
          | Returned tx =>
              payment <- payment_create env (fun id =>
                mkPayment id (order_id order) "CREDIT_CARD" (Some "razorpay")
                          (cpo_amount data) (cpo_currency data) PENDING tx
                          (json_object rzp) None) ;;
              ret (CreateSucceeded rzp payment
                     (order_id order, orderNumber order, totalAmount order))
          end
      end
  end.

Definition createPaymentOrder (env : Env) (data : CreatePaymentOrderData)
  (w : World) : CreatePaymentOrderResult * World :=
  match createPaymentOrder_try env data w with
  | (Returned r, w') => (r, w')
  | (Threw e, w') =>
      (CreateFailed (JStr (error_message_or "Failed to create payment order" e)),
       w')
  end.

(** The guard of [processPayment] together with the check it protects:
    [paymentMethod === 'razorpay' && razorpayPaymentId && razorpaySignature],
    then [verifyRazorpayPayment] on the three identifiers. *)
Definition isValidPayment (env : Env) (data : ProcessPaymentData) : bool :=
  if (data_paymentMethod data =? "razorpay")%string
     && truthy_string (razorpayPaymentId data)
     && truthy_string (razorpaySignature data)
  then
    match razorpayPaymentId data, razorpaySignature data with
    | Some pid, Some sig => verifyRazorpayPayment env (razorpayOrderId data) pid sig
    | _, _ => false
    end
  else false.

(** The [data] of [payment.update] in [processPayment]. *)
Definition verified_payment (env : Env) (data : ProcessPaymentData)
  (found : Payment) (paymentStatus : PaymentStatus) (row : Payment) : Payment :=
  mkPayment (payment_id row) (payment_orderId row) (paymentMethod row)
            (gateway row) (amount row) (currency row)
            paymentStatus
            (transactionId row)
            (json_object
               (assoc_set "verifiedAt" (JStr (nowISO env))
               (assoc_set "signature" (of_optional_string (razorpaySignature data))
               (assoc_set "paymentId" (of_optional_string (razorpayPaymentId data))
                  (js_spread (gatewayResponse found))))))
            (if PaymentStatus_eqb paymentStatus COMPLETED
             then Some (now env) else None).

Definition set_order_status (s : OrderStatus) (o : Order) : Order :=
  mkOrder (order_id o) (orderNumber o) s (totalAmount o).

Definition decrement_stock (q : Z) (p : Product) : Product :=
  mkProduct (product_id p) (stock p - q).

(** [for (const item of updatedOrder.orderItems) await product.update(...)]:
    one write per item, in order; a throw leaves the earlier writes. *)
Fixpoint decrement_items (env : Env) (items : list OrderItem) : Action unit :=
  match items with
  | [] => ret tt
  | item :: rest =>
      _ <- product_update env (item_productId item)
             (decrement_stock (quantity item)) ;;
      decrement_items env rest
  end.

(** The call to the courier service: it is logged, then answered by the
    environment. *)
Definition call_createDelhiveryShipment (env : Env) (oid : Z)
  : Action (bool * JValue * JValue) :=
  fun w =>
    let w' := log_shipmentCall w oid in
    match createDelhiveryShipment env oid with
    | ShipmentResult ok tracking err => (Returned (ok, tracking, err), w')
    | ShipmentThrew e => (Threw e, w')
    end.

(** The body of [if (paymentStatus === 'COMPLETED')]: the stock loop, then
    the shipment request inside its own [try]/[catch], whose two branches
    and whose handler only write to the console. *)
Definition fulfil_order (env : Env) (oid : Z) (items : list OrderItem)
  : Action unit :=
  decrement_items env items ;;;
  try_catch
    (_ <- call_createDelhiveryShipment env oid ;; ret tt)
    (fun _ => ret tt).

Definition processPayment_try (env : Env) (data : ProcessPaymentData)
  : Action ProcessPaymentResult :=
  payment <- payment_findFirst env (orderId data) (razorpayOrderId data) ;;
  match payment with
  | None => ret (ProcessFailed "Payment record not found")
  | Some payment =>
      let valid := isValidPayment env data in
      let paymentStatus := if valid then COMPLETED else FAILED in
      let orderStatus := if valid then ORDER_CONFIRMED else ORDER_FAILED in
      updatedPayment <- payment_update env (payment_id payment)
                          (verified_payment env data payment paymentStatus) ;;
      updatedOrder <- order_update env (orderId data)
                        (set_order_status orderStatus) ;;
      _ <- (if PaymentStatus_eqb paymentStatus COMPLETED then
              fulfil_order env (orderId data) (snd updatedOrder)
            else ret tt) ;;
      ret (ProcessDone (PaymentStatus_eqb paymentStatus COMPLETED)
             updatedPayment updatedOrder paymentStatus
             (if PaymentStatus_eqb paymentStatus COMPLETED
              then "Payment successful! Your order has been confirmed."
              else "Payment verification failed. Please try again."))
  end.

Definition processPayment (env : Env) (data : ProcessPaymentData) (w : World)
  : ProcessPaymentResult * World :=
  match processPayment_try env data w with
  | (Returned r, w') => (r, w')
  | (Threw e, w') =>
      (ProcessFailed (error_message_or "Failed to process payment" e), w')
  end.

Definition getPaymentDetails_try (env : Env) (oid : Z)
  : Action PaymentDetailsResult :=
  payment <- payment_findFirst env oid None ;;
  fun w =>
    (Returned
       (DetailsFound
          (option_map
             (fun p => (p, order_by_id w (payment_orderId p),
                        items_of_order w (payment_orderId p)))
             payment)),
     w).

Definition getPaymentDetails (env : Env) (oid : Z) (w : World)
  : PaymentDetailsResult * World :=
  match getPaymentDetails_try env oid w with
  | (Returned r, w') => (r, w')
  | (Threw e, w') =>
      (DetailsFailed (error_message_or "Failed to get payment details" e), w')
  end.

(** The [data] of [payment.update] in [refundPayment];
    [amount || payment.amount] takes the payment's amount when [amount] is
    missing or zero. *)
Definition refunded_payment (env : Env) (found : Payment) (amt : option Z)
  (row : Payment) : Payment :=
  mkPayment (payment_id row) (payment_orderId row) (paymentMethod row)
            (gateway row) (amount row) (currency row)
            REFUNDED
            (transactionId row)
            (json_object
               (assoc_set "refundAmount"
                  (JNum (match amt with
                         | Some a => if a =? 0 then amount found else a
                         | None => amount found
                         end))
               (assoc_set "refundedAt" (JStr (nowISO env))
                  (js_spread (gatewayResponse found)))))
            (paidAt row).

Definition refundPayment_try (env : Env) (paymentId : Z) (amt : option Z)
  : Action RefundResult :=
  payment <- payment_findUnique env paymentId ;;
  match payment with
  | None => ret (RefundFailed "Payment not found")
  | Some payment =>
      if negb (PaymentStatus_eqb (payment_status payment) COMPLETED) then
        ret (RefundFailed "Payment is not completed")
      else
        _ <- payment_update env paymentId (refunded_payment env payment amt) ;;
        _ <- order_update env (payment_orderId payment)
               (set_order_status ORDER_REFUNDED) ;;
        ret (RefundDone "Payment refunded successfully")
  end.

Definition refundPayment (env : Env) (paymentId : Z) (amt : option Z)
  (w : World) : RefundResult * World :=
  match refundPayment_try env paymentId amt w with
  | (Returned r, w') => (r, w')
  | (Threw e, w') =>
      (RefundFailed (error_message_or "Failed to refund payment" e), w')
  end.

(* ================================================================== *)
(** ** The courier adapter, [lib/delhivery.ts] *)
(* ================================================================== *)

Module Delhivery.

(** Pure code that may throw. *)
Definition and_then {A B : Type} (c : Outcome A) (k : A -> Outcome B)
  : Outcome B :=
  match c with
  | Returned a => k a
  | Threw e => Threw e
  end.

Fixpoint map_outcome {A B : Type} (f : A -> Outcome B) (l : list A)
  : Outcome (list B) :=
  match l with
  | [] => Returned []
  | x :: rest =>
      and_then (f x) (fun y =>
      and_then (map_outcome f rest) (fun ys => Returned (y :: ys)))
  end.

(** Reading a named property [v.k].  [null] and [undefined] throw a
    TypeError; strings and arrays have a [length]; the adapter reads no
    index and no method through this function. *)
Definition js_get (v : JValue) (k : string) : Outcome JValue :=
  match v with
  | JUndefined =>
      Threw (ThrownError
               ("Cannot read properties of undefined (reading '" ++ k ++ "')"))
  | JNull =>
      Threw (ThrownError
               ("Cannot read properties of null (reading '" ++ k ++ "')"))
  | JObj props => Returned (assoc_get k props)
  | JArr elems =>
      Returned (if (k =? "length")%string
                then JNum (Z.of_nat (List.length elems)) else JUndefined)
  | JStr s =>
      Returned (if (k =? "length")%string
                then JNum (Z.of_nat (String.length s)) else JUndefined)
  | JBool _ | JNum _ => Returned JUndefined
  end.

(** Optional chaining [v?.k]. *)
Definition js_get_opt (v : JValue) (k : string) : JValue :=
  match v with
  | JUndefined | JNull => JUndefined
  | _ => match js_get v k with
         | Returned x => x
         | Threw _ => JUndefined
         end
  end.

(** [a || b] *)
Definition js_or (a b : JValue) : JValue := if js_truthy a then a else b.

(** ToString, as a template literal applies it. *)
Fixpoint js_to_string (v : JValue) : string :=
  match v with
  | JUndefined => "undefined"
  | JNull => "null"
  | JBool true => "true"
  | JBool false => "false"
  | JNum n => string_of_Z n
  | JStr s => s
  | JArr elems =>
      (fix join (l : list JValue) : string :=
         match l with
         | [] => ""
         | [x] => match x with
                  | JUndefined | JNull => ""
                  | _ => js_to_string x
                  end
         | x :: rest =>
             (match x with
              | JUndefined | JNull => ""
              | _ => js_to_string x
              end) ++ "," ++ join rest
         end) elems
  | JObj _ => "[object Object]"
  end.

(** [v === w] against a string or boolean literal. *)
Definition strict_eq_string (v : JValue) (s : string) : bool :=
  match v with
  | JStr s' => (s' =? s)%string
  | _ => false
  end.

Definition strict_eq_true (v : JValue) : bool :=
  match v with
  | JBool true => true
  | _ => false
  end.

Record DelhiveryAddress : Type := mkDelhiveryAddress {
  name : string;
  address : string;
  city : string;
  state : string;
  pin : string;
  country : string;
  phone : string;
  email : option string
}.

Inductive PaymentMode : Type := PrePaid | COD.

Record Shipment : Type := mkShipment {
  shp_name : string;
  shp_add : string;
  shp_city : string;
  shp_state : string;
  shp_country : string;
  shp_pin : string;
  shp_phone : string;
  shp_email : option string;
  shp_order : string;
  products_desc : string;
  weight : string;
  shp_payment_mode : PaymentMode;
  collectable_amount : option string;
  return_name : option string;
  return_add : option string;
  return_city : option string;
  return_state : option string;
  return_country : option string;
  return_pin : option string;
  return_phone : option string;
  return_email : option string
}.

Record DelhiveryShipmentRequest : Type := mkDelhiveryShipmentRequest {
  pickup_location : DelhiveryAddress;
  shipments : list Shipment
}.

(** One entry of [DelhiveryShipmentResponse.packages]: the courier's
    fields under the adapter's names, [serviceable] made a boolean. *)
Record Package : Type := mkPackage {
  waybill : JValue;
  refnum : JValue;
  cod_amount : JValue;
  payment_mode : JValue;
  serviceable : bool;
  status : JValue;
  message : JValue
}.

(** [error] is [None] when the result object has no such key. *)
Record DelhiveryShipmentResponse : Type := mkDelhiveryShipmentResponse {
  success : bool;
  packages : list Package;
  error : option JValue
}.

Inductive Method : Type := GET | POST | PUT | DELETE.

Definition Method_eqb (a b : Method) : bool :=
  match a, b with
  | GET, GET | POST, POST | PUT, PUT | DELETE, DELETE => true
  | _, _ => false
  end.

Inductive RequestBody : Type :=
| ShipmentBody (r : DelhiveryShipmentRequest)
| CancelBody (waybill reason : string).

Record AxiosConfig : Type := mkAxiosConfig {
  cfg_method : Method;
  cfg_headers : list (string * string);
  cfg_timeout : Z;
  cfg_data : option RequestBody
}.

(** The promise of [axios(url, config)]: resolved with a response whose
    [data] is given, or rejected with a value. *)
Inductive AxiosOutcome : Type :=
| AxiosResolved (data : JValue)
| AxiosRejected (error : JValue).

(** The network, and the one piece of the language runtime the adapter
    can reach that is not written out here: whether a string converts to
    a number greater than zero. *)
Record Runtime : Type := mkRuntime {
  axios : string -> AxiosConfig -> AxiosOutcome;
  string_gt_zero : string -> bool
}.

(** [v > 0] *)
Definition js_gt_zero (rt : Runtime) (v : JValue) : bool :=
  match v with
  | JNum n => 0 <? n
  | JBool b => b
  | JStr s => string_gt_zero rt s
  | JArr _ | JObj _ => string_gt_zero rt (js_to_string v)
  | JUndefined | JNull => false
  end.

Definition CREATE_PACKAGE : string := "/api/cmu/create.json".

Record DelhiveryService : Type := mkDelhiveryService {
  apiKey : string;
  clientName : string;
  baseURL : string
}.

(** The constructor, from the three environment variables. *)
Definition new_DelhiveryService (DELHIVERY_BASE_URL DELHIVERY_API_KEY
  DELHIVERY_CLIENT_NAME : option string) : Outcome DelhiveryService :=
  let base := if truthy_string DELHIVERY_BASE_URL
              then DELHIVERY_BASE_URL else Some "https://track.delhivery.com" in
  let client := if truthy_string DELHIVERY_CLIENT_NAME
                then DELHIVERY_CLIENT_NAME else Some "ElegantJewelry" in
  match DELHIVERY_API_KEY, base, client with
  | Some key, Some b, Some c =>
      if negb (key =? "")%string then Returned (mkDelhiveryService key c b)
      else Threw (ThrownError "Delhivery API key is required")
  | _, _, _ => Threw (ThrownError "Delhivery API key is required")
  end.

Definition makeRequest (rt : Runtime) (svc : DelhiveryService)
  (endpoint : string) (method : Method) (data : option RequestBody)
  : Outcome JValue :=
  let url := baseURL svc ++ endpoint in
  let config :=
    mkAxiosConfig method
      [("Authorization", "Token " ++ apiKey svc);
       ("Content-Type", "application/json");
       ("Accept", "application/json")]
      30000
      (if Method_eqb method POST then data else None) in
  match axios rt url config with
  | AxiosResolved body => Returned body
  | AxiosRejected err =>
      and_then (js_get err "response") (fun response =>
      and_then (js_get err "message") (fun msg =>
        let detail := js_or (js_get_opt (js_get_opt response "data") "error") msg in
        Threw (ThrownError ("Delhivery API Error: " ++ js_to_string detail))))
  end.

Definition normalize_package (pkg : JValue) : Outcome Package :=
  and_then (js_get pkg "waybill") (fun w =>
  and_then (js_get pkg "refnum") (fun r =>
  and_then (js_get pkg "cod_amount") (fun c =>
  and_then (js_get pkg "payment_mode") (fun m =>
  and_then (js_get pkg "serviceable") (fun s =>
  and_then (js_get pkg "status") (fun st =>
  and_then (js_get pkg "message") (fun msg =>
    Returned (mkPackage w r c m
                (strict_eq_string s "true" || strict_eq_true s) st msg)))))))).

(** [response.packages.map(...)]: only an array has a [map]. *)
Definition packages_map (pkgs : JValue) : Outcome (list Package) :=
  match pkgs with
  | JArr elems => map_outcome normalize_package elems
  | _ => Threw (ThrownError "response.packages.map is not a function")
  end.

(** [response && response.k]: the property is read only of a truthy
    response, which is never [null] or [undefined]. *)
Definition response_field (response : JValue) (k : string) : JValue :=
  if js_truthy response then js_get_opt response k else response.

Definition createShipment_try (rt : Runtime) (svc : DelhiveryService)
  (shipmentData : DelhiveryShipmentRequest) : Outcome DelhiveryShipmentResponse :=
  and_then (makeRequest rt svc CREATE_PACKAGE POST
              (Some (ShipmentBody shipmentData))) (fun response =>
    let pkgs := response_field response "packages" in
    if js_truthy pkgs && js_gt_zero rt (js_get_opt pkgs "length") then
      and_then (packages_map pkgs) (fun ps =>
        Returned (mkDelhiveryShipmentResponse true ps None))
    else
      let err := response_field response "error" in
      if js_truthy err then
        Returned (mkDelhiveryShipmentResponse false [] (Some err))
      else
        Threw (ThrownError "Invalid response format from Delhivery")).

Definition createShipment (rt : Runtime) (svc : DelhiveryService)
  (shipmentData : DelhiveryShipmentRequest) : DelhiveryShipmentResponse :=
  match createShipment_try rt svc shipmentData with
  | Returned r => r
  | Threw e =>
      mkDelhiveryShipmentResponse false []
        (Some (JStr (error_message_or "Failed to create shipment" e)))
  end.

(* ------------------------------------------------------------------ *)
(** *** Tracking and cancellation *)

Definition TRACK_PACKAGE : string := "/api/v1/packages/json/".

Definition CANCEL_PACKAGE : string := "/api/p/edit".

(** The object literal of [trackShipment]: each property of the result
    with the courier's property it is read from, in the order written. *)
Definition tracking_fields : list (string * string) :=
  [("waybill", "Waybill");
   ("current_status", "CurrentStatus");
   ("current_status_type", "CurrentStatusType");
   ("current_status_location", "CurrentStatusLocation");
   ("current_status_time", "CurrentStatusTime");
   ("expected_delivery_date", "ExpectedDeliveryDate");
   ("delivered_at", "DeliveredAt");
   ("origin", "Origin");
   ("destination", "Destination");
   ("weight", "Weight");
   ("volume_weight", "VolumetricWeight");
   ("payment_mode", "PaymentMode");
   ("cod_amount", "CODAmount");
   ("customer_name", "Consignee");
   ("customer_phone", "ConsigneeContact");
   ("customer_address", "ConsigneeAddress");
   ("origin_pin", "OriginPinCode");
   ("destination_pin", "DestinationPinCode");
   ("origin_city", "OriginCity");
   ("destination_city", "DestinationCity");
   ("origin_state", "OriginState");
   ("destination_state", "DestinationState");
   ("origin_country", "OriginCountry");
   ("destination_country", "DestinationCountry");
   ("return_pin", "ReturnPinCode");
   ("return_city", "ReturnCity");
   ("return_state", "ReturnState");
   ("return_country", "ReturnCountry");
   ("return_address", "ReturnAddress");
   ("return_name", "ReturnName");
   ("return_phone", "ReturnContact");
   ("return_email", "ReturnEmail");
   ("pieces", "Pieces");
   ("product", "Product");
   ("product_amount", "ProductAmount");
   ("origin_address", "OriginAddress");
   ("destination_address", "DestinationAddress")].

Record Scan : Type := mkScan {
  scan_status : JValue;
  scan_status_type : JValue;
  scan_status_location : JValue;
  scan_status_time : JValue;
  scan_instruction : JValue
}.

(** One entry of [tracking_data.shipment_data]: the renamed properties,
    and the scans. *)
Record TrackedShipment : Type := mkTrackedShipment {
  tracked_fields : list (string * JValue);
  scans : list Scan
}.

(** [error] is [None] when the result object has no such key. *)
Record DelhiveryTrackingResponse : Type := mkDelhiveryTrackingResponse {
  trk_success : bool;
  shipment_data : list TrackedShipment;
  trk_error : option string
}.

Definition normalize_scan (scan : JValue) : Outcome Scan :=
  and_then (js_get scan "ScanStatus") (fun a =>
  and_then (js_get scan "ScanType") (fun b =>
  and_then (js_get scan "ScanLocation") (fun c =>
  and_then (js_get scan "ScanDateTime") (fun d =>
  and_then (js_get scan "Instruction") (fun e =>
    Returned (mkScan a b c d e)))))).

(** [shipment.Scans?.ScanDetails?.map(...) || []]: no scans when either
    link of the chain is missing; only an array has a [map]. *)
Definition normalize_scans (shipment : JValue) : Outcome (list Scan) :=
  and_then (js_get shipment "Scans") (fun scans =>
    match js_get_opt scans "ScanDetails" with
    | JUndefined | JNull => Returned []
    | JArr details => map_outcome normalize_scan details
    | _ =>
        Threw (ThrownError "shipment.Scans?.ScanDetails?.map is not a function")
    end).

Definition normalize_shipment (shipment : JValue) : Outcome TrackedShipment :=
  and_then
    (map_outcome
       (fun kv => and_then (js_get shipment (snd kv))
                    (fun v => Returned (fst kv, v)))
       tracking_fields) (fun fields =>
  and_then (normalize_scans shipment) (fun sc =>
    Returned (mkTrackedShipment fields sc))).

(** [response.ShipmentData.map(...)] *)
Definition shipments_map (data : JValue) : Outcome (list TrackedShipment) :=
  match data with
  | JArr elems => map_outcome normalize_shipment elems
  | _ => Threw (ThrownError "response.ShipmentData.map is not a function")
  end.

Definition trackShipment_try (rt : Runtime) (svc : DelhiveryService)
  (waybill : string) : Outcome DelhiveryTrackingResponse :=
  and_then (makeRequest rt svc (TRACK_PACKAGE ++ waybill) GET None)
    (fun response =>
       let data := response_field response "ShipmentData" in
       if js_truthy data && js_gt_zero rt (js_get_opt data "length") then
         and_then (shipments_map data) (fun ss =>
           Returned (mkDelhiveryTrackingResponse true ss None))
       else
         Returned (mkDelhiveryTrackingResponse false []
                     (Some "No tracking data found"))).

Definition trackShipment (rt : Runtime) (svc : DelhiveryService)
  (waybill : string) : DelhiveryTrackingResponse :=
  match trackShipment_try rt svc waybill with
  | Returned r => r
  | Threw e =>
      mkDelhiveryTrackingResponse false []
        (Some (error_message_or "Failed to track shipment" e))
  end.

(** [{ success, message?, error? }]; a key that the result object does
    not have is [None]. *)
Record CancelResponse : Type := mkCancelResponse {
  cancel_success : bool;
  cancel_message : option JValue;
  cancel_error : option JValue
}.

Definition cancelShipment_try (rt : Runtime) (svc : DelhiveryService)
  (waybill : string) : Outcome CancelResponse :=
  and_then (makeRequest rt svc CANCEL_PACKAGE POST
              (Some (CancelBody waybill "Order cancelled by customer")))
    (fun response =>
       if js_truthy (response_field response "success") then
         Returned (mkCancelResponse true
                     (Some (js_or (js_get_opt response "message")
                                  (JStr "Shipment cancelled successfully")))
                     None)
       else
         and_then (js_get response "error") (fun err =>
           Returned (mkCancelResponse false None
                       (Some (js_or err (JStr "Failed to cancel shipment")))))).

Definition cancelShipment (rt : Runtime) (svc : DelhiveryService)
  (waybill : string) : CancelResponse :=
  match cancelShipment_try rt svc waybill with
  | Returned r => r
  | Threw e =>
      mkCancelResponse false None
        (Some (JStr (error_message_or "Failed to cancel shipment" e)))
  end.

(** [getDelhiveryService]: the module keeps one instance, built on the
    first call that gets through the constructor. *)
Definition getDelhiveryService
  (DELHIVERY_BASE_URL DELHIVERY_API_KEY DELHIVERY_CLIENT_NAME : option string)
  (delhiveryServiceInstance : option DelhiveryService)
  : Outcome DelhiveryService * option DelhiveryService :=
  match delhiveryServiceInstance with
  | Some svc => (Returned svc, Some svc)
  | None =>
      match new_DelhiveryService DELHIVERY_BASE_URL DELHIVERY_API_KEY
              DELHIVERY_CLIENT_NAME with
      | Returned svc => (Returned svc, Some svc)
      | Threw e => (Threw e, None)
      end
  end.

End Delhivery.

(* ================================================================== *)
(** ** Vocabulary of the statements *)
(* ================================================================== *)

(** No database operation throws during the call. *)
Definition no_db_fault (env : Env) : Prop :=
  forall op, dbFault env op = None.

(** The three conditions under which [processPayment] accepts a payment:
    the method is ['razorpay'], the payment id and the signature are
    present (and not empty), and the signature check returns [true]. *)
Definition verification_succeeds (env : Env) (data : ProcessPaymentData)
  : Prop :=
  data_paymentMethod data = "razorpay" /\
  exists pid sig,
    razorpayPaymentId data = Some pid /\ pid <> "" /\
    razorpaySignature data = Some sig /\ sig <> "" /\
    verifyRazorpayPayment env (razorpayOrderId data) pid sig = true.

(** The shipment step fails: a result with [success:false], or a throw. *)
Definition shipment_fails (o : ShipmentOutcome) : Prop :=
  match o with
  | ShipmentResult ok _ _ => ok = false
  | ShipmentThrew _ => True
  end.






(** A thrown value from which a [catch] block gets a message that is not
    empty. *)
Definition carries_message (e : Thrown) : Prop :=
  exists m, e = ThrownError m /\ m <> "".


(** A courier that accepts and answers with one package. *)
Definition accepting_courier : Delhivery.Runtime :=
  Delhivery.mkRuntime
    (fun _ _ =>
       Delhivery.AxiosResolved
         (JObj [("success", JBool true);
                ("packages",
                 JArr [JObj [("waybill", JStr "WB123"); ("refnum", JStr "ORD-1001");
                             ("payment_mode", JStr "Pre-paid");
                             ("serviceable", JBool true);
                             ("status", JStr "Success")]])]))
    (fun _ => false).

(** A network that times out. *)
Definition unreachable_courier : Delhivery.Runtime :=
  Delhivery.mkRuntime
    (fun _ _ =>
       Delhivery.AxiosRejected
         (JObj [("message", JStr "timeout of 30000ms exceeded")]))
    (fun _ => false).

Definition test_service : Delhivery.DelhiveryService :=
  Delhivery.mkDelhiveryService "key" "ElegantJewelry" "https://track.delhivery.com".

Definition test_request : Delhivery.DelhiveryShipmentRequest :=
  Delhivery.mkDelhiveryShipmentRequest
    (Delhivery.mkDelhiveryAddress "Warehouse" "1 Main Road" "Pune" "MH"
       "411001" "India" "9999999999" None)
    [Delhivery.mkShipment "A Buyer" "2 Side Street" "Mumbai" "MH" "India"
       "400001" "8888888888" None "ORD-1001" "Ring" "50" Delhivery.PrePaid
       None None None None None None None None None].

(** An action keeps [I] when [I] holds of the state it leaves, whether
    it returns or throws. *)
Definition keeps (I : World -> Prop) {A : Type} (c : Action A) : Prop :=
  forall w, I w -> I (snd (c w)).

(** *** A small shop

    Order 1001 with one item: three units of product 7, of which ten are
    in stock; one payment attempt, pending, for gateway order
    [order_abc]. *)
Definition order1001 : Order := mkOrder 1001 "ORD-1001" ORDER_PENDING 2000.

Definition item1 : OrderItem := mkOrderItem 1 1001 7 3.

Definition product7 : Product := mkProduct 7 10.

Definition payment1 (st : PaymentStatus) (paid : option Z) : Payment :=
  mkPayment 1 1001 "CREDIT_CARD" (Some "razorpay") 2000 "INR" st
            (Some "order_abc") (JObj [("id", JStr "order_abc")]) paid.

Definition shop : World :=
  mkWorld [order1001] [item1] [payment1 PENDING None] [product7] [].

(** The checkout's answer for that payment, signed by the gateway. *)
Definition checkout : ProcessPaymentData :=
  mkProcessPaymentData 1001 "razorpay" (Some "order_abc") (Some "pay_xyz")
                       (Some "sig_ok") 2000.

Definition checkout_forged : ProcessPaymentData :=
  mkProcessPaymentData 1001 "razorpay" (Some "order_abc") (Some "pay_xyz")
                       (Some "sig_bad") 2000.

(** An environment whose gateway accepts the signature [sig_ok] only,
    with the given courier answer and database faults. *)
Definition test_env (ship : ShipmentOutcome) (faults : DbOp -> option Thrown)
  : Env :=
  mkEnv 1700000000000 "2023-11-14T22:13:20.000Z" faults
        (fun _ _ sig => (sig =? "sig_ok")%string)
        (fun _ => ship)
        (fun _ => RazorpayCreated [("id", JStr "order_abc"); ("status", JStr "created")])
        (fun a => a * 100)
        (fun n => "rcpt_" ++ n).

Definition no_faults : DbOp -> option Thrown := fun _ => None.

Definition shipped : ShipmentOutcome :=
  ShipmentResult true (JStr "WB123") JUndefined.

Definition courier_timeout : ShipmentOutcome :=
  ShipmentThrew (ThrownError "timeout of 30000ms exceeded").

(** The shop after the checkout went through, and after that payment was
    refunded. *)
Definition shop_after_payment : World :=
  snd (processPayment (test_env shipped no_faults) checkout shop).

Definition shop_after_refund : World :=
  snd (refundPayment (test_env shipped no_faults) 1 None shop_after_payment).

(** The order write is the one database operation that throws. *)
Definition order_write_fails : DbOp -> option Thrown :=
  fun op =>
    match op with
    | OrderUpdate _ => Some (ThrownError "Can't reach database server")
    | _ => None
    end.

(** *** Vocabulary of the further properties *)

(** The units of product [pid] that the items ask for. *)
Definition quantity_of (pid : Z) (items : list OrderItem) : Z :=
  fold_right
    (fun it acc => if item_productId it =? pid then quantity it + acc else acc)
    0 items.

(** The columns of a payment that identify the attempt. *)
Definition payment_identity (p : Payment)
  : Z * Z * string * option string * Z * string * option string :=
  (payment_id p, payment_orderId p, paymentMethod p, gateway p, amount p,
   currency p, transactionId p).

(** What [refundPayment] may do to a payment row: nothing, or move a
    COMPLETED payment to REFUNDED, keeping who it is and when it was
    paid. *)
Definition refund_step (p p' : Payment) : Prop :=
  p' = p \/
  (payment_status p = COMPLETED /\ payment_status p' = REFUNDED /\
   payment_identity p' = payment_identity p /\ paidAt p' = paidAt p).

(** What [processPayment] may do to a payment row: nothing, or write the
    verdict, COMPLETED with a payment date or FAILED without one. *)
Definition verdict_step (p p' : Payment) : Prop :=
  p' = p \/
  (payment_identity p' = payment_identity p /\
   ((payment_status p' = COMPLETED /\ paidAt p' <> None) \/
    (payment_status p' = FAILED /\ paidAt p' = None))).

(** An order row changed in its status at most. *)
Definition status_step (o o' : Order) : Prop :=
  order_id o' = order_id o /\ orderNumber o' = orderNumber o /\
  totalAmount o' = totalAmount o.

(** A product row whose stock did not grow. *)
Definition stock_not_raised (p p' : Product) : Prop :=
  product_id p' = product_id p /\ stock p' <= stock p.

(** Some item cannot have its stock written: the write is made to throw,
    or the product has no row. *)
Definition stock_write_blocked (env : Env) (w : World) (items : list OrderItem)
  : Prop :=
  exists it, In it items /\
    (dbFault env (ProductUpdate (item_productId it)) <> None \/
     product_by_id w (item_productId it) = None).

(** A response body with two shipments, the first with one scan. *)
Definition tracking_body : JValue :=
  JObj [("ShipmentData",
         JArr [JObj [("Waybill", JStr "WB123"); ("CurrentStatus", JStr "In Transit");
                     ("Scans",
                      JObj [("ScanDetails",
                             JArr [JObj [("ScanStatus", JStr "Picked Up");
                                         ("ScanLocation", JStr "Pune")]])])];
               JObj [("Waybill", JStr "WB124"); ("CurrentStatus", JStr "Delivered")]])].

Definition courier_answering (body : JValue) : Delhivery.Runtime :=
  Delhivery.mkRuntime (fun _ _ => Delhivery.AxiosResolved body) (fun _ => false).


(** The value is [null] or [undefined]. *)
Definition nullish (v : JValue) : bool :=
  match v with
  | JUndefined | JNull => true
  | _ => false
  end.

(** How an entry of a tracking result answers to the courier's entry it
    was made from: every property under the adapter's name holds what the
    courier sent under its own, and there is no scan when the courier
    sent no scan list. *)
Definition tracks (entry : JValue) (t : Delhivery.TrackedShipment) : Prop :=
  (forall k src,
      In (k, src) Delhivery.tracking_fields ->
      assoc_get k (Delhivery.tracked_fields t) = Delhivery.js_get_opt entry src) /\
  (nullish
     (Delhivery.js_get_opt (Delhivery.js_get_opt entry "Scans") "ScanDetails")
   = true ->
   Delhivery.scans t = []).

(** How a package of a shipment result answers to the courier's entry. *)
Definition packs (entry : JValue) (pkg : Delhivery.Package) : Prop :=
  Delhivery.waybill pkg = Delhivery.js_get_opt entry "waybill" /\
  Delhivery.refnum pkg = Delhivery.js_get_opt entry "refnum" /\
  Delhivery.cod_amount pkg = Delhivery.js_get_opt entry "cod_amount" /\
  Delhivery.payment_mode pkg = Delhivery.js_get_opt entry "payment_mode" /\
  Delhivery.status pkg = Delhivery.js_get_opt entry "status" /\
  Delhivery.message pkg = Delhivery.js_get_opt entry "message" /\
  (Delhivery.serviceable pkg = true <->
   Delhivery.js_get_opt entry "serviceable" = JStr "true" \/
   Delhivery.js_get_opt entry "serviceable" = JBool true).

(** The configuration that [makeRequest] hands to [axios]: the token,
    JSON content type, thirty seconds, and the data for a POST only. *)
Definition request_config (svc : Delhivery.DelhiveryService)
  (method : Delhivery.Method) (data : option Delhivery.RequestBody)
  : Delhivery.AxiosConfig :=
  Delhivery.mkAxiosConfig method
    [("Authorization", "Token " ++ Delhivery.apiKey svc);
     ("Content-Type", "application/json");
     ("Accept", "application/json")]
    30000
    (match method with Delhivery.POST => data | _ => None end).


(** An order for two units more than the shelf holds. *)
Definition shop_low_stock : World :=
  mkWorld [order1001] [item1] [payment1 PENDING None] [mkProduct 7 1] [].

(** A product row is missing for the order's item. *)
Definition shop_no_product : World :=
  mkWorld [order1001] [item1] [payment1 PENDING None] [] [].

(** The rows of the shop's payment and order once the checkout went
    through. *)
Definition paid_payment : Payment :=
  verified_payment (test_env shipped no_faults) checkout
    (payment1 PENDING None) COMPLETED (payment1 PENDING None).

Definition paid_order : Order := set_order_status ORDER_CONFIRMED order1001.

Definition new_order_data : CreatePaymentOrderData :=
  mkCreatePaymentOrderData 1001 2000 "INR" "buyer@example.com" "A Buyer" None.

(* ================================================================== *)
(** * Properties *)
(* ================================================================== *)

(** ** Tables *)

Section Tables.
Context {A : Type} (key : A -> Z).

Lemma row_by_id_key (id : Z) (rows : list A) (r : A) :
  row_by_id key id rows = Some r -> key r = id.
Proof.
  unfold row_by_id. intros H. apply find_some in H.
  destruct H as [_ H]. now apply Z.eqb_eq in H.
Qed.

Lemma row_by_id_of_member (rows : list A) (r : A) :
  In r rows -> exists r0, row_by_id key (key r) rows = Some r0.
Proof.
  intros Hin. unfold row_by_id.
  destruct (find (fun x => key x =? key r) rows) as [r0|] eqn:E.
  - now exists r0.
  - apply (find_none _ _ E) in Hin. rewrite Z.eqb_refl in Hin. discriminate.
Qed.

Lemma update_row_found (id : Z) (f : A -> A) (rows : list A) (r : A) :
  row_by_id key id rows = Some r ->
  exists t, update_row key id f rows = Some (f r, t).
Proof.
  unfold row_by_id. induction rows as [|x rest IH]; simpl; [discriminate|].
  destruct (key x =? id) eqn:E; intros H.
  - injection H as <-. eauto.
  - destruct (IH H) as [t Ht]. rewrite Ht. eauto.
Qed.

Lemma update_row_missing (id : Z) (f : A -> A) (rows : list A) :
  row_by_id key id rows = None -> update_row key id f rows = None.
Proof.
  unfold row_by_id. induction rows as [|x rest IH]; simpl; [reflexivity|].
  destruct (key x =? id); [discriminate|].
  intros H. now rewrite (IH H).
Qed.

Lemma update_row_inv (id : Z) (f : A -> A) (rows t : list A) (r' : A) :
  update_row key id f rows = Some (r', t) ->
  exists r, row_by_id key id rows = Some r /\ r' = f r.
Proof.
  destruct (row_by_id key id rows) as [r|] eqn:E.
  - destruct (update_row_found id f rows r E) as [t' Ht].
    rewrite Ht. intros H. injection H as <- _. eauto.
  - rewrite (update_row_missing id f rows E). discriminate.
Qed.

Section KeyKept.
Variable f : A -> A.
Hypothesis key_kept : forall r, key (f r) = key r.

Lemma update_row_same (id : Z) (rows t : list A) (r' : A) :
  update_row key id f rows = Some (r', t) ->
  row_by_id key id t = Some r'.
Proof.
  unfold row_by_id. revert t.
  induction rows as [|x rest IH]; simpl; intros t; [discriminate|].
  destruct (key x =? id) eqn:E.
  - intros H. injection H as <- <-. simpl.
    now rewrite key_kept, E.
  - destruct (update_row key id f rest) as [[r0 t0]|]; [|discriminate].
    intros H. injection H as <- <-. simpl. rewrite E. now apply IH.
Qed.

Lemma update_row_other (id id' : Z) (rows t : list A) (r' : A) :
  update_row key id f rows = Some (r', t) ->
  id' <> id ->
  row_by_id key id' t = row_by_id key id' rows.
Proof.
  unfold row_by_id. intros H Hne. revert t H.
  induction rows as [|x rest IH]; simpl; intros t; [discriminate|].
  destruct (key x =? id) eqn:E.
  - intros H. injection H as _ <-. simpl. rewrite key_kept.
    apply Z.eqb_eq in E.
    destruct (key x =? id') eqn:E'; [|reflexivity].
    apply Z.eqb_eq in E'. congruence.
  - destruct (update_row key id f rest) as [[r0 t0]|]; [|discriminate].
    intros H. injection H as <- <-. simpl.
    destruct (key x =? id'); [reflexivity|]. now apply IH.
Qed.

Lemma update_row_keeps_rows (id id' : Z) (rows t : list A) (r' : A) :
  update_row key id f rows = Some (r', t) ->
  row_by_id key id' rows <> None -> row_by_id key id' t <> None.
Proof.
  intros H Hex. destruct (Z.eq_dec id' id) as [->|Hne].
  - now rewrite (update_row_same _ _ _ _ H).
  - now rewrite (update_row_other _ _ _ _ _ H Hne).
Qed.
End KeyKept.

End Tables.

(** ** Frames: what each step leaves alone *)

Lemma db_call_no_fault {A : Type} (env : Env) (op : DbOp) (c : Action A) :
  dbFault env op = None -> db_call env op c = c.
Proof. unfold db_call. now intros ->. Qed.

Lemma db_call_fault {A : Type} (env : Env) (op : DbOp) (c : Action A)
  (e : Thrown) (w : World) :
  dbFault env op = Some e -> db_call env op c w = (Threw e, w).
Proof. unfold db_call. now intros ->. Qed.

Lemma product_update_frame (env : Env) (id : Z) (f : Product -> Product)
  (w : World) :
  let w' := snd (product_update env id f w) in
  orders w' = orders w /\ orderItems w' = orderItems w /\
  payments w' = payments w /\ shipmentCalls w' = shipmentCalls w.
Proof.
  unfold product_update, db_call.
  destruct (dbFault env (ProductUpdate id)); simpl; [tauto|].
  destruct (update_row product_id id f (products w)) as [[p t]|]; simpl; tauto.
Qed.

Lemma decrement_items_frame (env : Env) (items : list OrderItem) (w : World) :
  let w' := snd (decrement_items env items w) in
  orders w' = orders w /\ orderItems w' = orderItems w /\
  payments w' = payments w /\ shipmentCalls w' = shipmentCalls w.
Proof.
  revert w. induction items as [|it rest IH]; intros w; simpl; [tauto|].
  unfold bind.
  pose proof (product_update_frame env (item_productId it)
                (decrement_stock (quantity it)) w) as Hp.
  destruct (product_update env (item_productId it)
              (decrement_stock (quantity it)) w) as [[p|e] w1]; simpl in *.
  - specialize (IH w1). simpl in IH.
    destruct Hp as (<- & <- & <- & <-). exact IH.
  - exact Hp.
Qed.

(** When every item's product exists and no stock write is made to throw,
    the loop runs to its end. *)
Lemma decrement_items_returns (env : Env) (items : list OrderItem) (w : World) :
  (forall it, In it items -> dbFault env (ProductUpdate (item_productId it)) = None) ->
  (forall it, In it items -> product_by_id w (item_productId it) <> None) ->
  exists w', decrement_items env items w = (Returned tt, w').
Proof.
  revert w. induction items as [|it rest IH]; intros w Hf Hex; simpl.
  - now exists w.
  - unfold bind, product_update.
    rewrite db_call_no_fault by (apply Hf; now left).
    assert (Hit : product_by_id w (item_productId it) <> None)
      by (apply Hex; now left).
    unfold product_by_id in Hit.
    destruct (row_by_id product_id (item_productId it) (products w))
      as [p|] eqn:E; [|congruence].
    destruct (update_row_found product_id _ (decrement_stock (quantity it)) _ _ E)
      as [t Ht].
    rewrite Ht. apply IH.
    + intros it' Hin. apply Hf. now right.
    + intros it' Hin. unfold product_by_id. simpl.
      eapply update_row_keeps_rows; [|exact Ht|].
      * reflexivity.
      * apply Hex. now right.
Qed.

(** ** Running the steps of an action *)

Lemma bind_returned {A B : Type} (c : Action A) (k : A -> Action B)
  (w w' : World) (a : A) :
  c w = (Returned a, w') -> bind c k w = k a w'.
Proof. unfold bind. now intros ->. Qed.

Lemma bind_threw {A B : Type} (c : Action A) (k : A -> Action B)
  (w w' : World) (e : Thrown) :
  c w = (Threw e, w') -> bind c k w = (Threw e, w').
Proof. unfold bind. now intros ->. Qed.

Lemma payment_findFirst_run (env : Env) (oid : Z) (tx : option string)
  (w : World) :
  dbFault env PaymentFindFirst = None ->
  payment_findFirst env oid tx w =
  (Returned (find (payment_matches oid tx) (payments w)), w).
Proof. intros F. unfold payment_findFirst. now rewrite db_call_no_fault. Qed.

Lemma payment_update_run (env : Env) (id : Z) (f : Payment -> Payment)
  (w : World) (p0 : Payment) :
  dbFault env (PaymentUpdate id) = None ->
  payment_by_id w id = Some p0 ->
  exists t, update_row payment_id id f (payments w) = Some (f p0, t) /\
            payment_update env id f w = (Returned (f p0), with_payments w t).
Proof.
  intros F H. destruct (update_row_found payment_id id f _ _ H) as [t Ht].
  exists t. split; [exact Ht|].
  unfold payment_update. rewrite db_call_no_fault by assumption. now rewrite Ht.
Qed.

Lemma order_update_run (env : Env) (id : Z) (f : Order -> Order)
  (w : World) (o : Order) :
  dbFault env (OrderUpdate id) = None ->
  order_by_id w id = Some o ->
  exists t, update_row order_id id f (orders w) = Some (f o, t) /\
            order_update env id f w =
            (Returned (f o, items_of_order w id), with_orders w t).
Proof.
  intros F H. destruct (update_row_found order_id id f _ _ H) as [t Ht].
  exists t. split; [exact Ht|].
  unfold order_update. rewrite db_call_no_fault by assumption. now rewrite Ht.
Qed.

(** The shipment request never escapes its [try]: the call is logged and
    the action returns. *)
Lemma shipment_request_swallowed (env : Env) (oid : Z) (w : World) :
  try_catch (_ <- call_createDelhiveryShipment env oid ;; ret tt)
            (fun _ => ret tt) w
  = (Returned tt, log_shipmentCall w oid).
Proof.
  unfold try_catch, bind, call_createDelhiveryShipment, ret.
  now destruct (createDelhiveryShipment env oid).
Qed.

Lemma fulfil_order_run (env : Env) (oid : Z) (items : list OrderItem)
  (w w1 : World) :
  decrement_items env items w = (Returned tt, w1) ->
  fulfil_order env oid items w = (Returned tt, log_shipmentCall w1 oid).
Proof.
  intros H. unfold fulfil_order.
  rewrite (bind_returned _ _ _ _ _ H). apply shipment_request_swallowed.
Qed.

Lemma fulfil_order_frame (env : Env) (oid : Z) (items : list OrderItem)
  (w : World) :
  let w' := snd (fulfil_order env oid items w) in
  orders w' = orders w /\ orderItems w' = orderItems w /\
  payments w' = payments w.
Proof.
  pose proof (decrement_items_frame env items w) as Hd.
  destruct (decrement_items env items w) as [[[]|e] w1] eqn:E; simpl in Hd.
  - rewrite (fulfil_order_run _ _ _ _ _ E). simpl. tauto.
  - unfold fulfil_order. rewrite (bind_threw _ _ _ _ _ E). simpl. tauto.
Qed.

Lemma isValidPayment_spec (env : Env) (data : ProcessPaymentData) :
  isValidPayment env data = true <-> verification_succeeds env data.
Proof.
  unfold isValidPayment, verification_succeeds, truthy_string.
  destruct (String.eqb_spec (data_paymentMethod data) "razorpay") as [Hm|Hm];
    simpl.
  - destruct (razorpayPaymentId data) as [pid|]; simpl.
    + destruct (String.eqb_spec pid "") as [Hp|Hp]; simpl.
      * split; [discriminate|].
        intros (_ & pid' & sg & E & Hne & _). congruence.
      * destruct (razorpaySignature data) as [sg|]; simpl.
        -- destruct (String.eqb_spec sg "") as [Hs|Hs]; simpl.
           ++ split; [discriminate|].
              intros (_ & pid' & sg' & _ & _ & E & Hne & _). congruence.
           ++ split.
              ** intros Hv. split; [assumption|]. exists pid, sg. auto.
              ** intros (_ & pid' & sg' & E1 & _ & E2 & _ & Hv).
                 injection E1 as <-. injection E2 as <-. exact Hv.
        -- split; [discriminate|].
           intros (_ & pid' & sg' & _ & _ & E & _). discriminate.
    + split; [discriminate|].
      intros (_ & pid' & sg' & E & _). discriminate.
  - split; [discriminate|]. intros (E & _). contradiction.
Qed.

(** ** [processPayment] once the payment is found *)

Section StatusWrites.
Variables (env : Env) (data : ProcessPaymentData) (w : World).
Variables (p : Payment) (o : Order).
Hypothesis lookup_runs : dbFault env PaymentFindFirst = None.
Hypothesis payment_write_runs :
  dbFault env (PaymentUpdate (payment_id p)) = None.
Hypothesis found :
  find (payment_matches (orderId data) (razorpayOrderId data)) (payments w)
  = Some p.

Let oid := orderId data.
Let valid := isValidPayment env data.
Let paymentStatus := if valid then COMPLETED else FAILED.
Let orderStatus := if valid then ORDER_CONFIRMED else ORDER_FAILED.

(** The payment row is written first. *)
Lemma processPayment_payment_written :
  exists p0 tP,
    payment_by_id w (payment_id p) = Some p0 /\
    update_row payment_id (payment_id p)
      (verified_payment env data p paymentStatus) (payments w)
    = Some (verified_payment env data p paymentStatus p0, tP) /\
    processPayment_try env data w =
    (updatedOrder <- order_update env oid (set_order_status orderStatus) ;;
     _ <- (if valid then fulfil_order env oid (snd updatedOrder)
           else ret tt) ;;
     ret (ProcessDone valid
            (verified_payment env data p paymentStatus p0)
            updatedOrder paymentStatus
            (if valid
             then "Payment successful! Your order has been confirmed."
             else "Payment verification failed. Please try again.")))
      (with_payments w tP).
Proof.
  assert (Hin : In p (payments w)) by (apply find_some in found; tauto).
  destruct (row_by_id_of_member payment_id _ _ Hin) as [p0 Hp0].
  destruct (payment_update_run env _
              (verified_payment env data p paymentStatus) w p0
              payment_write_runs Hp0) as (tP & HtP & HrunP).
  exists p0, tP. repeat split; [exact Hp0|exact HtP|].
  unfold processPayment_try.
  rewrite (bind_returned _ _ _ _ _ (payment_findFirst_run env _ _ w lookup_runs)).
  rewrite found.
  fold valid. fold paymentStatus. fold orderStatus. fold oid.
  rewrite (bind_returned _ _ _ _ _ HrunP).
  unfold paymentStatus. now destruct valid.
Qed.

(** When the order write throws, the payment row stays written and
    nothing else happens. *)
Lemma processPayment_order_write_throws (e : Thrown) :
  dbFault env (OrderUpdate oid) = Some e ->
  exists p0 tP,
    payment_by_id w (payment_id p) = Some p0 /\
    update_row payment_id (payment_id p)
      (verified_payment env data p paymentStatus) (payments w)
    = Some (verified_payment env data p paymentStatus p0, tP) /\
    processPayment env data w =
    (ProcessFailed (error_message_or "Failed to process payment" e),
     with_payments w tP).
Proof.
  intros F.
  destruct processPayment_payment_written as (p0 & tP & Hp0 & HtP & Hrun).
  exists p0, tP. repeat split; [exact Hp0|exact HtP|].
  unfold processPayment. rewrite Hrun.
  erewrite bind_threw; [reflexivity|].
  unfold order_update. now apply db_call_fault.
Qed.

Hypothesis order_write_runs : dbFault env (OrderUpdate oid) = None.
Hypothesis order_exists : order_by_id w oid = Some o.

(** Both rows are written before anything else is touched. *)
Lemma processPayment_statuses_written :
  exists p0 tP tO,
    payment_by_id w (payment_id p) = Some p0 /\
    update_row payment_id (payment_id p)
      (verified_payment env data p paymentStatus) (payments w)
    = Some (verified_payment env data p paymentStatus p0, tP) /\
    update_row order_id oid (set_order_status orderStatus) (orders w)
    = Some (set_order_status orderStatus o, tO) /\
    processPayment_try env data w =
    (_ <- (if valid then fulfil_order env oid (items_of_order w oid)
           else ret tt) ;;
     ret (ProcessDone valid
            (verified_payment env data p paymentStatus p0)
            (set_order_status orderStatus o, items_of_order w oid)
            paymentStatus
            (if valid
             then "Payment successful! Your order has been confirmed."
             else "Payment verification failed. Please try again.")))
      (with_orders (with_payments w tP) tO).
Proof.
  destruct processPayment_payment_written as (p0 & tP & Hp0 & HtP & Hrun).
  destruct (order_update_run env oid (set_order_status orderStatus)
              (with_payments w tP) o order_write_runs order_exists)
    as (tO & HtO & HrunO).
  exists p0, tP, tO. repeat split; [exact Hp0|exact HtP|exact HtO|].
  rewrite Hrun. now rewrite (bind_returned _ _ _ _ _ HrunO).
Qed.

(** The two rows as they stand when [processPayment] is over. *)
Lemma processPayment_final_statuses :
  let w' := snd (processPayment env data w) in
  exists p' o',
    payment_by_id w' (payment_id p) = Some p' /\
    order_by_id w' oid = Some o' /\
    payment_status p' = paymentStatus /\
    paidAt p' = (if valid then Some (now env) else None) /\
    order_status o' = orderStatus.
Proof.
  destruct processPayment_statuses_written
    as (p0 & tP & tO & Hp0 & HtP & HtO & Hrun).
  exists (verified_payment env data p paymentStatus p0),
         (set_order_status orderStatus o).
  assert (Hw : let w' := snd (processPayment env data w) in
               payments w' = tP /\ orders w' = tO).
  { unfold processPayment. rewrite Hrun. unfold bind.
    destruct valid.
    - pose proof (fulfil_order_frame env oid (items_of_order w oid)
                    (with_orders (with_payments w tP) tO)) as Hf.
      destruct (fulfil_order env oid (items_of_order w oid)
                  (with_orders (with_payments w tP) tO)) as [[[]|e] w2];
        simpl in *; intuition congruence.
    - simpl. auto. }
  simpl in Hw. destruct Hw as [HwP HwO].
  unfold payment_by_id, order_by_id. simpl. rewrite HwP, HwO.
  repeat split.
  - eapply update_row_same; [|exact HtP]. reflexivity.
  - eapply update_row_same; [|exact HtO]. reflexivity.
  - unfold paymentStatus. simpl. now destruct valid.
Qed.

(** A rejected payment: the two rows, and nothing else. *)
Lemma processPayment_rejected :
  valid = false ->
  let w' := snd (processPayment env data w) in
  products w' = products w /\ orderItems w' = orderItems w /\
  shipmentCalls w' = shipmentCalls w /\
  exists pay ord,
    fst (processPayment env data w) =
    ProcessDone false pay ord FAILED
                "Payment verification failed. Please try again.".
Proof.
  intros Hv.
  destruct processPayment_statuses_written
    as (p0 & tP & tO & Hp0 & HtP & HtO & Hrun).
  unfold processPayment. rewrite Hrun. unfold paymentStatus.
  rewrite Hv. simpl. repeat split; eauto.
Qed.
End StatusWrites.

(** ** Claims about [processPayment] *)

(** C1. Once the payment record is found and the two status writes go
    through, the payment is COMPLETED and the order CONFIRMED exactly
    when the method is ['razorpay'], the payment id and the signature are
    present and [verifyRazorpayPayment] returns [true]; on every other
    path both are FAILED, the products table is untouched and no
    shipment-creation call is issued. *)
Theorem processPayment_completes_iff_verified
  (env : Env) (data : ProcessPaymentData) (w : World) (p : Payment) (o : Order) :
  no_db_fault env ->
  find (payment_matches (orderId data) (razorpayOrderId data)) (payments w)
  = Some p ->
  order_by_id w (orderId data) = Some o ->
  let w' := snd (processPayment env data w) in
  exists p' o',
    payment_by_id w' (payment_id p) = Some p' /\
    order_by_id w' (orderId data) = Some o' /\
    (payment_status p' = COMPLETED <-> verification_succeeds env data) /\
    (order_status o' = ORDER_CONFIRMED <-> verification_succeeds env data) /\
    (~ verification_succeeds env data ->
     payment_status p' = FAILED /\ order_status o' = ORDER_FAILED /\
     products w' = products w /\ shipmentCalls w' = shipmentCalls w).
Proof.
  intros NF Hfind Hord.
  destruct (processPayment_final_statuses env data w p o
              (NF _) (NF _) Hfind (NF _) Hord)
    as (p' & o' & Hp' & Ho' & Hps & _ & Hos).
  pose proof (isValidPayment_spec env data) as Hspec.
  simpl. exists p', o'. split; [exact Hp'|]. split; [exact Ho'|].
  rewrite Hps, Hos.
  destruct (isValidPayment env data) eqn:Hv.
  - assert (HV : verification_succeeds env data) by now apply Hspec.
    split; [now split|]. split; [now split|]. intros Hn. contradiction.
  - assert (Hn : ~ verification_succeeds env data).
    { intros H. apply Hspec in H. discriminate. }
    destruct (processPayment_rejected env data w p o
                (NF _) (NF _) Hfind (NF _) Hord Hv) as (Hpr & _ & Hsh & _).
    split; [split; [discriminate|contradiction]|].
    split; [split; [discriminate|contradiction]|].
    intros _. auto.
Qed.

Lemma processPayment_completes_iff_verified_witness :
  let w' := snd (processPayment (test_env shipped no_faults) checkout_forged shop) in
  exists p' o',
    payment_by_id w' 1 = Some p' /\
    order_by_id w' 1001 = Some o' /\
    (payment_status p' = COMPLETED <->
     verification_succeeds (test_env shipped no_faults) checkout_forged) /\
    (order_status o' = ORDER_CONFIRMED <->
     verification_succeeds (test_env shipped no_faults) checkout_forged) /\
    (~ verification_succeeds (test_env shipped no_faults) checkout_forged ->
     payment_status p' = FAILED /\ order_status o' = ORDER_FAILED /\
     products w' = products shop /\ shipmentCalls w' = shipmentCalls shop).
Proof.
  apply (processPayment_completes_iff_verified
           (test_env shipped no_faults) checkout_forged shop
           (payment1 PENDING None) order1001).
  - unfold no_db_fault. intros op. reflexivity.
  - reflexivity.
  - reflexivity.
Defined.



(** Even when the lookup itself throws, nothing is written. *)
Lemma processPayment_lookup_throws
  (env : Env) (data : ProcessPaymentData) (w : World) (e : Thrown) :
  dbFault env PaymentFindFirst = Some e ->
  processPayment env data w =
  (ProcessFailed (error_message_or "Failed to process payment" e), w).
Proof.
  intros F. unfold processPayment, processPayment_try.
  erewrite bind_threw; [reflexivity|].
  unfold payment_findFirst. now apply db_call_fault.
Qed.

(** An accepted payment whose stock writes all go through: the log grows
    by one shipment request, whatever the courier answers. *)
Lemma processPayment_accepted
  (env : Env) (data : ProcessPaymentData) (w : World) (p : Payment) (o : Order) :
  no_db_fault env ->
  find (payment_matches (orderId data) (razorpayOrderId data)) (payments w)
  = Some p ->
  order_by_id w (orderId data) = Some o ->
  (forall it, In it (items_of_order w (orderId data)) ->
              product_by_id w (item_productId it) <> None) ->
  isValidPayment env data = true ->
  exists p0 tP tO w1,
    update_row payment_id (payment_id p)
      (verified_payment env data p COMPLETED) (payments w)
    = Some (verified_payment env data p COMPLETED p0, tP) /\
    update_row order_id (orderId data) (set_order_status ORDER_CONFIRMED)
      (orders w)
    = Some (set_order_status ORDER_CONFIRMED o, tO) /\
    decrement_items env (items_of_order w (orderId data))
      (with_orders (with_payments w tP) tO) = (Returned tt, w1) /\
    processPayment env data w =
    (ProcessDone true (verified_payment env data p COMPLETED p0)
       (set_order_status ORDER_CONFIRMED o, items_of_order w (orderId data))
       COMPLETED "Payment successful! Your order has been confirmed.",
     log_shipmentCall w1 (orderId data)).
Proof.
  intros NF Hfind Hord Hprod Hv.
  destruct (processPayment_statuses_written env data w p o
              (NF _) (NF _) Hfind (NF _) Hord)
    as (p0 & tP & tO & Hp0 & HtP & HtO & Hrun).
  rewrite Hv in HtP, HtO, Hrun.
  destruct (decrement_items_returns env (items_of_order w (orderId data))
              (with_orders (with_payments w tP) tO)) as [w1 Hdec].
  { intros it _. apply NF. }
  { exact Hprod. }
  exists p0, tP, tO, w1. repeat split; [exact HtP|exact HtO|exact Hdec|].
  unfold processPayment. rewrite Hrun.
  now rewrite (bind_returned _ _ _ _ _ (fulfil_order_run _ _ _ _ _ Hdec)).
Qed.

(** C4. When the verification succeeds and the shipment step then fails
    or throws, [processPayment] still returns [success:true] (an ordinary
    result, nothing is thrown), the payment is COMPLETED and the order
    CONFIRMED. *)
Theorem processPayment_shipment_failure_swallowed
  (env : Env) (data : ProcessPaymentData) (w : World) (p : Payment) (o : Order) :
  no_db_fault env ->
  find (payment_matches (orderId data) (razorpayOrderId data)) (payments w)
  = Some p ->
  order_by_id w (orderId data) = Some o ->
  (forall it, In it (items_of_order w (orderId data)) ->
              product_by_id w (item_productId it) <> None) ->
  verification_succeeds env data ->
  shipment_fails (createDelhiveryShipment env (orderId data)) ->
  exists p' o' items w',
    processPayment env data w =
    (ProcessDone true p' (o', items) COMPLETED
       "Payment successful! Your order has been confirmed.", w') /\
    payment_by_id w' (payment_id p) = Some p' /\
    payment_status p' = COMPLETED /\
    order_by_id w' (orderId data) = Some o' /\
    order_status o' = ORDER_CONFIRMED /\
    shipmentCalls w' = (shipmentCalls w ++ [orderId data])%list.
Proof.
  intros NF Hfind Hord Hprod HV _.
  apply isValidPayment_spec in HV.
  destruct (processPayment_accepted env data w p o NF Hfind Hord Hprod HV)
    as (p0 & tP & tO & w1 & HtP & HtO & Hdec & Hrun).
  pose proof (decrement_items_frame env (items_of_order w (orderId data))
                (with_orders (with_payments w tP) tO)) as Hfr.
  rewrite Hdec in Hfr. simpl in Hfr. destruct Hfr as (HO & _ & HP & HS).
  exists (verified_payment env data p COMPLETED p0),
         (set_order_status ORDER_CONFIRMED o),
         (items_of_order w (orderId data)),
         (log_shipmentCall w1 (orderId data)).
  split; [exact Hrun|].
  unfold payment_by_id, order_by_id. simpl. rewrite HO, HP, HS.
  repeat split.
  - eapply update_row_same; [|exact HtP]. reflexivity.
  - eapply update_row_same; [|exact HtO]. reflexivity.
Qed.

Lemma processPayment_shipment_failure_swallowed_witness :
  exists p' o' items w',
    processPayment (test_env courier_timeout no_faults) checkout shop =
    (ProcessDone true p' (o', items) COMPLETED
       "Payment successful! Your order has been confirmed.", w') /\
    payment_by_id w' 1 = Some p' /\
    payment_status p' = COMPLETED /\
    order_by_id w' 1001 = Some o' /\
    order_status o' = ORDER_CONFIRMED /\
    shipmentCalls w' = [1001].
Proof.
  apply (processPayment_shipment_failure_swallowed
           (test_env courier_timeout no_faults) checkout shop
           (payment1 PENDING None) order1001).
  - unfold no_db_fault. intros op. reflexivity.
  - reflexivity.
  - reflexivity.
  - intros it [<-|[]]. discriminate.
  - split; [reflexivity|]. exists "pay_xyz", "sig_ok".
    repeat split; try reflexivity; discriminate.
  - exact I.
Defined.

(** C5. An order with one item of quantity 3 whose product has stock 10:
    after a call whose verification succeeds the payment is COMPLETED,
    the order CONFIRMED, the stock 7, and exactly one shipment-creation
    call was issued. *)
Theorem processPayment_one_item_scenario
  (env : Env) (data : ProcessPaymentData) (w : World) (p : Payment) (o : Order)
  (it : OrderItem) (pr : Product) :
  no_db_fault env ->
  find (payment_matches (orderId data) (razorpayOrderId data)) (payments w)
  = Some p ->
  order_by_id w (orderId data) = Some o ->
  items_of_order w (orderId data) = [it] ->
  quantity it = 3 ->
  product_by_id w (item_productId it) = Some pr ->
  stock pr = 10 ->
  verification_succeeds env data ->
  let w' := snd (processPayment env data w) in
  exists p' o' pr',
    payment_by_id w' (payment_id p) = Some p' /\
    payment_status p' = COMPLETED /\
    order_by_id w' (orderId data) = Some o' /\
    order_status o' = ORDER_CONFIRMED /\
    product_by_id w' (item_productId it) = Some pr' /\
    stock pr' = 7 /\
    shipmentCalls w' = (shipmentCalls w ++ [orderId data])%list.
Proof.
  intros NF Hfind Hord Hitems Hq Hpr Hst HV. simpl.
  apply isValidPayment_spec in HV.
  destruct (processPayment_accepted env data w p o NF Hfind Hord) as
    (p0 & tP & tO & w1 & HtP & HtO & Hdec & Hrun); [|exact HV|].
  { rewrite Hitems. intros it' [<-|[]]. now rewrite Hpr. }
  rewrite Hrun. simpl.
  pose proof (decrement_items_frame env (items_of_order w (orderId data))
                (with_orders (with_payments w tP) tO)) as Hfr.
  rewrite Hdec in Hfr. simpl in Hfr. destruct Hfr as (HO & _ & HP & HS).
  rewrite Hitems in Hdec. simpl in Hdec. unfold bind, product_update in Hdec.
  rewrite db_call_no_fault in Hdec by apply NF. simpl in Hdec.
  destruct (update_row_found product_id _ (decrement_stock (quantity it)) _ _ Hpr)
    as [tR HtR].
  rewrite HtR in Hdec. unfold ret in Hdec. injection Hdec as <-.
  exists (verified_payment env data p COMPLETED p0),
         (set_order_status ORDER_CONFIRMED o),
         (decrement_stock (quantity it) pr).
  unfold payment_by_id, order_by_id, product_by_id. simpl.
  repeat split.
  - eapply update_row_same; [|exact HtP]. reflexivity.
  - eapply update_row_same; [|exact HtO]. reflexivity.
  - eapply update_row_same; [|exact HtR]. reflexivity.
  - rewrite Hst, Hq. reflexivity.
Qed.

Lemma processPayment_one_item_scenario_witness :
  let w' := snd (processPayment (test_env shipped no_faults) checkout shop) in
  exists p' o' pr',
    payment_by_id w' 1 = Some p' /\
    payment_status p' = COMPLETED /\
    order_by_id w' 1001 = Some o' /\
    order_status o' = ORDER_CONFIRMED /\
    product_by_id w' 7 = Some pr' /\
    stock pr' = 7 /\
    shipmentCalls w' = [1001].
Proof.
  apply (processPayment_one_item_scenario
           (test_env shipped no_faults) checkout shop
           (payment1 PENDING None) order1001 item1 product7).
  - unfold no_db_fault. intros op. reflexivity.
  - reflexivity.
  - reflexivity.
  - reflexivity.
  - reflexivity.
  - reflexivity.
  - reflexivity.
  - split; [reflexivity|]. exists "pay_xyz", "sig_ok".
    repeat split; try reflexivity; discriminate.
Defined.




(** C3. The same verified checkout submitted twice: the second call finds
    the payment again, whatever its status, decrements the stock a second
    time (10, 7, 4) and issues a second shipment-creation call. *)
Theorem processPayment_replay_decrements_again :
  let env := test_env shipped no_faults in
  let once := snd (processPayment env checkout shop) in
  let twice := snd (processPayment env checkout once) in
  map stock (products shop) = [10] /\
  map stock (products once) = [7] /\ shipmentCalls once = [1001] /\
  map stock (products twice) = [4] /\ shipmentCalls twice = [1001; 1001].
Proof. repeat split; reflexivity. Qed.

(** ** [refundPayment] *)

(** A payment that is not COMPLETED is not refunded: the call answers
    [{success:false}] and writes nothing. *)
Lemma refundPayment_requires_completed
  (env : Env) (paymentId : Z) (amt : option Z) (w : World) (p : Payment) :
  dbFault env (PaymentFindUnique paymentId) = None ->
  payment_by_id w paymentId = Some p ->
  payment_status p <> COMPLETED ->
  refundPayment env paymentId amt w =
  (RefundFailed "Payment is not completed", w).
Proof.
  intros F Hp Hst. unfold refundPayment, refundPayment_try, bind.
  unfold payment_findUnique. rewrite db_call_no_fault by assumption.
  rewrite Hp. destruct (payment_status p); try reflexivity. contradiction.
Qed.

(** A COMPLETED payment is moved to REFUNDED, and its order with it. *)
Lemma refundPayment_refunds_completed
  (env : Env) (paymentId : Z) (amt : option Z) (w : World) (p : Payment)
  (o : Order) :
  no_db_fault env ->
  payment_by_id w paymentId = Some p ->
  payment_status p = COMPLETED ->
  order_by_id w (payment_orderId p) = Some o ->
  exists w' p' o',
    refundPayment env paymentId amt w =
    (RefundDone "Payment refunded successfully", w') /\
    payment_by_id w' paymentId = Some p' /\
    payment_status p' = REFUNDED /\ paidAt p' = paidAt p /\
    order_by_id w' (payment_orderId p) = Some o' /\
    order_status o' = ORDER_REFUNDED.
Proof.
  intros NF Hp Hst Ho.
  destruct (payment_update_run env paymentId (refunded_payment env p amt) w p
              (NF _) Hp) as (tP & HtP & HrunP).
  destruct (order_update_run env (payment_orderId p)
              (set_order_status ORDER_REFUNDED) (with_payments w tP) o
              (NF _) Ho) as (tO & HtO & HrunO).
  exists (with_orders (with_payments w tP) tO),
         (refunded_payment env p amt p),
         (set_order_status ORDER_REFUNDED o).
  split.
  - unfold refundPayment, refundPayment_try.
    erewrite bind_returned
      by (unfold payment_findUnique; rewrite db_call_no_fault by apply NF;
          rewrite Hp; reflexivity).
    cbv beta iota. rewrite Hst.
    change (negb (PaymentStatus_eqb COMPLETED COMPLETED)) with false.
    cbv iota.
    rewrite (bind_returned _ _ _ _ _ HrunP).
    now rewrite (bind_returned _ _ _ _ _ HrunO).
  - unfold payment_by_id, order_by_id. simpl. repeat split.
    + eapply update_row_same; [|exact HtP]. reflexivity.
    + eapply update_row_same; [|exact HtO]. reflexivity.
Qed.

(** C8. The shop's payment is completed, then refunded; the checkout's
    answer is then submitted once more.  [refundPayment] left the payment
    REFUNDED, and [processPayment], which does not look at the status of
    the payment it finds, moves it back to COMPLETED (and, with a bad
    signature, to FAILED). *)
Theorem processPayment_moves_refunded_payment :
  let env := test_env shipped no_faults in
  option_map payment_status (payment_by_id shop_after_payment 1) = Some COMPLETED /\
  option_map payment_status (payment_by_id shop_after_refund 1) = Some REFUNDED /\
  option_map payment_status
    (payment_by_id (snd (processPayment env checkout shop_after_refund)) 1)
  = Some COMPLETED /\
  option_map payment_status
    (payment_by_id (snd (processPayment env checkout_forged shop_after_refund)) 1)
  = Some FAILED.
Proof. repeat split; reflexivity. Qed.

(** ** Invariants of the payments table *)

Section Keeps.
Variable I : World -> Prop.




Lemma keeps_try_catch {A : Type} (c : Action A) (h : Thrown -> Action A) :
  keeps I c -> (forall e, keeps I (h e)) -> keeps I (try_catch c h).
Proof.
  intros Hc Hh w H. unfold try_catch. specialize (Hc w H).
  destruct (c w) as [[a|e] w1]; simpl in *.
  - exact Hc.
  - now apply Hh.
Qed.

End Keeps.

Section PaymentRows.
Variable P : Payment -> Prop.
Let I (w : World) : Prop := Forall P (payments w).







End PaymentRows.







(** ** [getPaymentDetails] *)

(** C10. When no Payment record exists for the order, the call answers
    [{success:true, payment:null}]; it answers [{success:false, error}]
    only when the lookup itself throws, and does so whenever it throws. *)
Theorem getPaymentDetails_null_without_payment
  (env : Env) (oid : Z) (w : World) :
  (dbFault env PaymentFindFirst = None ->
   (forall p, In p (payments w) -> payment_orderId p <> oid) ->
   getPaymentDetails env oid w = (DetailsFound None, w)) /\
  (forall msg w',
      getPaymentDetails env oid w = (DetailsFailed msg, w') ->
      exists e, dbFault env PaymentFindFirst = Some e /\
                msg = error_message_or "Failed to get payment details" e) /\
  (forall e,
      dbFault env PaymentFindFirst = Some e ->
      getPaymentDetails env oid w =
      (DetailsFailed (error_message_or "Failed to get payment details" e), w)).
Proof.
  unfold getPaymentDetails, getPaymentDetails_try, bind, payment_findFirst,
    db_call.
  destruct (dbFault env PaymentFindFirst) as [e|]; simpl.
  - repeat split.
    + discriminate.
    + intros msg w' H. injection H as <- <-. now exists e.
    + intros e' H. now injection H as <-.
  - repeat split.
    + intros _ Hnone.
      destruct (find (payment_matches oid None) (payments w)) as [p|] eqn:E;
        [|reflexivity].
      apply find_some in E. destruct E as [Hin Hm].
      unfold payment_matches in Hm. rewrite andb_true_r in Hm.
      apply Z.eqb_eq in Hm. now apply Hnone in Hin.
    + intros msg w' H. discriminate H.
    + discriminate.
Qed.

Lemma getPaymentDetails_null_without_payment_witness :
  getPaymentDetails (test_env shipped no_faults) 5 shop
  = (DetailsFound None, shop).
Proof.
  apply (proj1 (getPaymentDetails_null_without_payment
                  (test_env shipped no_faults) 5 shop)).
  - reflexivity.
  - intros p [<-|[]]. discriminate.
Defined.

(** ** [DelhiveryService.createShipment] *)

Lemma js_get_throws (v : JValue) (k : string) (e : Thrown) :
  Delhivery.js_get v k = Threw e -> carries_message e.
Proof.
  destruct v; simpl; intros H; try discriminate H; injection H as <-;
    eexists; (split; [reflexivity|discriminate]).
Qed.

Lemma map_outcome_length {A B : Type} (f : A -> Outcome B) (l : list A)
  (ys : list B) :
  Delhivery.map_outcome f l = Returned ys -> List.length ys = List.length l.
Proof.
  revert ys. induction l as [|x rest IH]; simpl; intros ys H.
  - now injection H as <-.
  - destruct (f x) as [y|e]; simpl in H; [|discriminate].
    destruct (Delhivery.map_outcome f rest) as [ys'|e]; simpl in H;
      [|discriminate].
    injection H as <-. simpl. f_equal. now apply IH.
Qed.

Lemma map_outcome_throws {A B : Type} (f : A -> Outcome B) (Q : Thrown -> Prop)
  (l : list A) (e : Thrown) :
  (forall x e', f x = Threw e' -> Q e') ->
  Delhivery.map_outcome f l = Threw e -> Q e.
Proof.
  intros Hf. induction l as [|x rest IH]; simpl; [discriminate|].
  destruct (f x) as [y|e'] eqn:E; simpl.
  - destruct (Delhivery.map_outcome f rest) as [ys|e'']; simpl.
    + discriminate.
    + intros H. injection H as <-. now apply IH.
  - intros H. injection H as <-. eapply Hf, E.
Qed.


Lemma makeRequest_throws (rt : Delhivery.Runtime)
  (svc : Delhivery.DelhiveryService) (endpoint : string)
  (method : Delhivery.Method) (data : option Delhivery.RequestBody)
  (e : Thrown) :
  Delhivery.makeRequest rt svc endpoint method data = Threw e ->
  carries_message e.
Proof.
  unfold Delhivery.makeRequest, Delhivery.and_then.
  destruct (Delhivery.axios rt _ _) as [body|err]; [discriminate|].
  destruct (Delhivery.js_get err "response") as [response|e1] eqn:E1.
  - destruct (Delhivery.js_get err "message") as [msg|e2] eqn:E2.
    + intros H. injection H as <-. eexists. split; [reflexivity|].
      simpl. discriminate.
    + intros H. injection H as <-. eapply js_get_throws, E2.
  - intros H. injection H as <-. eapply js_get_throws, E1.
Qed.




(* ================================================================== *)
(** * Further properties *)
(* ================================================================== *)

(** ** More on tables *)

Lemma update_row_Forall2 {A : Type} (key : A -> Z) (R : A -> A -> Prop)
  (id : Z) (f : A -> A) (rows t : list A) (r r' : A) :
  (forall x, R x x) ->
  row_by_id key id rows = Some r ->
  R r (f r) ->
  update_row key id f rows = Some (r', t) ->
  Forall2 R rows t.
Proof.
  unfold row_by_id. intros Hrefl Hr Hf. revert t Hr.
  induction rows as [|x rest IH]; simpl; intros t; [discriminate|].
  destruct (key x =? id).
  - intros Hr H. injection Hr as ->. injection H as _ <-.
    constructor; [exact Hf|].
    clear - Hrefl. induction rest; constructor; auto.
  - intros Hr. destruct (update_row key id f rest) as [[r0 t0]|]; [|discriminate].
    intros H. injection H as <- <-. constructor; [apply Hrefl|now apply IH].
Qed.

Lemma Forall2_refl {A : Type} (R : A -> A -> Prop) (l : list A) :
  (forall x, R x x) -> Forall2 R l l.
Proof. intros H. induction l; constructor; auto. Qed.

Lemma Forall2_map_eq {A B : Type} (R : A -> A -> Prop) (g : A -> B)
  (l l' : list A) :
  (forall x y, R x y -> g y = g x) -> Forall2 R l l' -> map g l' = map g l.
Proof.
  intros H HF. induction HF as [|x y l l' Hxy _ IH]; simpl; [reflexivity|].
  now rewrite (H _ _ Hxy), IH.
Qed.

(** ** [refundPayment], case by case *)

(** Every run of [refundPayment]: it writes nothing and fails; or it
    finds a COMPLETED payment and writes its row, after which the order
    write either throws, leaving the payment row written, or goes
    through. *)
Lemma refundPayment_cases (env : Env) (paymentId : Z) (amt : option Z)
  (w : World) :
  (snd (refundPayment env paymentId amt w) = w /\
   exists msg, fst (refundPayment env paymentId amt w) = RefundFailed msg) \/
  (exists p tP,
      payment_by_id w paymentId = Some p /\
      payment_status p = COMPLETED /\
      update_row payment_id paymentId (refunded_payment env p amt) (payments w)
      = Some (refunded_payment env p amt p, tP) /\
      ((snd (refundPayment env paymentId amt w) = with_payments w tP /\
        exists msg, fst (refundPayment env paymentId amt w) = RefundFailed msg) \/
       (exists o tO,
           order_by_id w (payment_orderId p) = Some o /\
           update_row order_id (payment_orderId p)
             (set_order_status ORDER_REFUNDED) (orders w)
           = Some (set_order_status ORDER_REFUNDED o, tO) /\
           refundPayment env paymentId amt w =
           (RefundDone "Payment refunded successfully",
            with_orders (with_payments w tP) tO)))).
Proof.
  unfold refundPayment, refundPayment_try, bind, payment_findUnique, db_call.
  destruct (dbFault env (PaymentFindUnique paymentId)) as [e|];
    [left; simpl; eauto|].
  destruct (payment_by_id w paymentId) as [p|] eqn:Hp; [|left; simpl; eauto].
  destruct (payment_status p) eqn:Hst; try (left; simpl; eauto; fail).
  change (negb (PaymentStatus_eqb COMPLETED COMPLETED)) with false.
  cbv beta iota.
  unfold payment_update, order_update, db_call.
  destruct (dbFault env (PaymentUpdate paymentId)) as [e|];
    [left; simpl; eauto|].
  destruct (update_row_found payment_id paymentId (refunded_payment env p amt)
              _ _ Hp) as [tP HtP].
  rewrite HtP. right. exists p, tP. repeat split; try assumption.
  destruct (dbFault env (OrderUpdate (payment_orderId p))) as [e|];
    [left; simpl; eauto|].
  simpl.
  destruct (row_by_id order_id (payment_orderId p) (orders w)) as [o|] eqn:Ho.
  - destruct (update_row_found order_id _ (set_order_status ORDER_REFUNDED)
                _ _ Ho) as [tO HtO].
    rewrite HtO. right. exists o, tO. repeat split; assumption.
  - rewrite (update_row_missing order_id _ (set_order_status ORDER_REFUNDED)
               _ Ho).
    left. simpl. eauto.
Qed.

(** ** Objects *)

Lemma assoc_get_set_same (k : string) (v : JValue)
  (props : list (string * JValue)) :
  assoc_get k (assoc_set k v props) = v.
Proof.
  induction props as [|[k' v'] rest IH]; simpl.
  - now rewrite String.eqb_refl.
  - destruct (String.eqb_spec k k') as [->|Hne]; simpl.
    + now rewrite String.eqb_refl.
    + destruct (String.eqb_spec k k'); [contradiction|exact IH].
Qed.

Lemma assoc_get_set_other (k k' : string) (v : JValue)
  (props : list (string * JValue)) :
  k <> k' -> assoc_get k (assoc_set k' v props) = assoc_get k props.
Proof.
  intros Hne. induction props as [|[k0 v0] rest IH]; simpl.
  - destruct (String.eqb_spec k k'); [contradiction|reflexivity].
  - destruct (String.eqb_spec k' k0) as [->|Hne0]; simpl.
    + destruct (String.eqb_spec k k0); [contradiction|reflexivity].
    + destruct (String.eqb_spec k k0); [reflexivity|exact IH].
Qed.

(** Storing an object keeps every property that has a value. *)
Lemma assoc_get_stored (k : string) (props : list (string * JValue)) :
  is_undefined (assoc_get k props) = false ->
  assoc_get k (filter (fun kv => negb (is_undefined (snd kv))) props)
  = assoc_get k props.
Proof.
  induction props as [|[k' v'] rest IH]; simpl; [reflexivity|].
  destruct (String.eqb_spec k k') as [->|Hne].
  - intros Hv. rewrite Hv. simpl. now rewrite String.eqb_refl.
  - intros Hv. destruct (is_undefined v'); simpl.
    + now apply IH.
    + destruct (String.eqb_spec k k'); [contradiction|now apply IH].
Qed.

(** ** [refundPayment] *)

(** X1. A refund is refused, with nothing written, when the payment does
    not exist ('Payment not found') and when it exists with any status
    other than COMPLETED ('Payment is not completed'). *)
Theorem refundPayment_refused_unless_completed
  (env : Env) (paymentId : Z) (amt : option Z) (w : World) :
  dbFault env (PaymentFindUnique paymentId) = None ->
  (payment_by_id w paymentId = None ->
   refundPayment env paymentId amt w = (RefundFailed "Payment not found", w)) /\
  (forall p,
      payment_by_id w paymentId = Some p ->
      payment_status p <> COMPLETED ->
      refundPayment env paymentId amt w =
      (RefundFailed "Payment is not completed", w)).
Proof.
  intros F. split.
  - intros Hp. unfold refundPayment, refundPayment_try, bind, payment_findUnique.
    rewrite db_call_no_fault by assumption. now rewrite Hp.
  - intros p Hp Hst. now apply refundPayment_requires_completed with (p := p).
Qed.

Lemma refundPayment_refused_unless_completed_witness :
  refundPayment (test_env shipped no_faults) 9 None shop
  = (RefundFailed "Payment not found", shop) /\
  refundPayment (test_env shipped no_faults) 1 None shop
  = (RefundFailed "Payment is not completed", shop).
Proof.
  destruct (refundPayment_refused_unless_completed
              (test_env shipped no_faults) 9 None shop eq_refl) as [H9 _].
  destruct (refundPayment_refused_unless_completed
              (test_env shipped no_faults) 1 None shop eq_refl) as [_ H1].
  split.
  - apply H9. reflexivity.
  - apply (H1 (payment1 PENDING None)); [reflexivity|discriminate].
Defined.

(** X2. Refunding a COMPLETED payment moves the payment to REFUNDED and
    its order to REFUNDED, keeps the payment's [paidAt], and records
    [refundedAt] and [refundAmount] in [gatewayResponse]: the amount
    asked for, or the payment's own amount when none is given or when it
    is zero.  The stock and the shipment log are as they were: a refund
    puts nothing back on the shelf. *)
Theorem refundPayment_completed_is_refunded
  (env : Env) (paymentId : Z) (amt : option Z) (w : World) (p : Payment)
  (o : Order) :
  no_db_fault env ->
  payment_by_id w paymentId = Some p ->
  payment_status p = COMPLETED ->
  order_by_id w (payment_orderId p) = Some o ->
  exists w' p' o' props,
    refundPayment env paymentId amt w =
    (RefundDone "Payment refunded successfully", w') /\
    payment_by_id w' paymentId = Some p' /\
    payment_status p' = REFUNDED /\ paidAt p' = paidAt p /\
    gatewayResponse p' = JObj props /\
    assoc_get "refundedAt" props = JStr (nowISO env) /\
    assoc_get "refundAmount" props =
      JNum (match amt with
            | Some a => if a =? 0 then amount p else a
            | None => amount p
            end) /\
    order_by_id w' (payment_orderId p) = Some o' /\
    order_status o' = ORDER_REFUNDED /\
    products w' = products w /\ shipmentCalls w' = shipmentCalls w.
Proof.
  intros NF Hp Hst Ho.
  destruct (refundPayment_cases env paymentId amt w)
    as [[_ [msg Hr]]|(p1 & tP & Hp1 & _ & HtP & Hcase)].
  - destruct (refundPayment_refunds_completed env paymentId amt w p o
                NF Hp Hst Ho) as (w' & _ & _ & Hrun & _).
    rewrite Hrun in Hr. discriminate Hr.
  - rewrite Hp in Hp1. injection Hp1 as <-.
    destruct Hcase as [[_ [msg Hr]]|(o1 & tO & Ho1 & HtO & Hrun)].
    + destruct (refundPayment_refunds_completed env paymentId amt w p o
                  NF Hp Hst Ho) as (w' & _ & _ & Hrun & _).
      rewrite Hrun in Hr. discriminate Hr.
    + rewrite Ho in Ho1. injection Ho1 as <-.
      exists (with_orders (with_payments w tP) tO),
             (refunded_payment env p amt p),
             (set_order_status ORDER_REFUNDED o).
      eexists. split; [exact Hrun|].
      unfold payment_by_id, order_by_id. simpl.
      split; [eapply update_row_same; [|exact HtP]; reflexivity|].
      split; [reflexivity|]. split; [reflexivity|].
      split; [reflexivity|].
      split.
      { rewrite assoc_get_stored;
          (rewrite assoc_get_set_other by discriminate;
           rewrite assoc_get_set_same; reflexivity). }
      split.
      { rewrite assoc_get_stored;
          (rewrite assoc_get_set_same; reflexivity). }
      split; [eapply update_row_same; [|exact HtO]; reflexivity|].
      repeat split.
Qed.

Lemma refundPayment_completed_is_refunded_witness :
  exists w' p' o' props,
    refundPayment (test_env shipped no_faults) 1 (Some 0) shop_after_payment =
    (RefundDone "Payment refunded successfully", w') /\
    payment_by_id w' 1 = Some p' /\
    payment_status p' = REFUNDED /\ paidAt p' = Some 1700000000000 /\
    gatewayResponse p' = JObj props /\
    assoc_get "refundedAt" props = JStr "2023-11-14T22:13:20.000Z" /\
    assoc_get "refundAmount" props = JNum 2000 /\
    order_by_id w' 1001 = Some o' /\
    order_status o' = ORDER_REFUNDED /\
    products w' = products shop_after_payment /\
    shipmentCalls w' = shipmentCalls shop_after_payment.
Proof.
  apply (refundPayment_completed_is_refunded
           (test_env shipped no_faults) 1 (Some 0) shop_after_payment
           paid_payment paid_order).
  - unfold no_db_fault. intros op. reflexivity.
  - reflexivity.
  - reflexivity.
  - reflexivity.
Defined.

(** X3. A second refund of the same payment is refused and changes
    nothing: the payment is REFUNDED, no longer COMPLETED. *)
Theorem refundPayment_twice_refused
  (env env' : Env) (paymentId : Z) (amt amt' : option Z) (w : World)
  (p : Payment) (o : Order) :
  no_db_fault env ->
  dbFault env' (PaymentFindUnique paymentId) = None ->
  payment_by_id w paymentId = Some p ->
  payment_status p = COMPLETED ->
  order_by_id w (payment_orderId p) = Some o ->
  let w1 := snd (refundPayment env paymentId amt w) in
  refundPayment env' paymentId amt' w1 =
  (RefundFailed "Payment is not completed", w1).
Proof.
  intros NF F Hp Hst Ho. simpl.
  destruct (refundPayment_refunds_completed env paymentId amt w p o
              NF Hp Hst Ho) as (w' & p' & o' & Hrun & Hp' & Hst' & _).
  rewrite Hrun. simpl.
  apply refundPayment_requires_completed with (p := p'); try assumption.
  rewrite Hst'. discriminate.
Qed.

Lemma refundPayment_twice_refused_witness :
  refundPayment (test_env shipped no_faults) 1 None shop_after_refund
  = (RefundFailed "Payment is not completed", shop_after_refund).
Proof.
  apply (refundPayment_twice_refused
           (test_env shipped no_faults) (test_env shipped no_faults)
           1 None None shop_after_payment
           paid_payment paid_order).
  - unfold no_db_fault. intros op. reflexivity.
  - reflexivity.
  - reflexivity.
  - reflexivity.
  - reflexivity.
Defined.

(** X4. Whatever happens (unknown payment, database faults), one call of
    [refundPayment] changes payment rows only by moving a COMPLETED
    payment to REFUNDED, changes order rows in their status only, and
    never touches the order items, the stock or the shipment log; no row
    is added or removed. *)
Theorem refundPayment_touches_statuses_only
  (env : Env) (paymentId : Z) (amt : option Z) (w : World) :
  let w' := snd (refundPayment env paymentId amt w) in
  Forall2 refund_step (payments w) (payments w') /\
  Forall2 status_step (orders w) (orders w') /\
  orderItems w' = orderItems w /\
  products w' = products w /\
  shipmentCalls w' = shipmentCalls w.
Proof.
  assert (Hre : forall x, refund_step x x) by (intros x; now left).
  assert (Hst : forall x, status_step x x) by (intros x; repeat split).
  simpl.
  destruct (refundPayment_cases env paymentId amt w)
    as [[-> _]|(p & tP & Hp & Hs & HtP & Hcase)].
  - repeat split; auto using Forall2_refl.
  - assert (HP : Forall2 refund_step (payments w) tP).
    { eapply update_row_Forall2; [exact Hre|exact Hp| |exact HtP].
      right. repeat split. exact Hs. }
    destruct Hcase as [[-> _]|(o & tO & Ho & HtO & ->)]; simpl.
    + repeat split; auto using Forall2_refl.
    + repeat split; auto.
      eapply update_row_Forall2; [exact Hst|exact Ho| |exact HtO].
      repeat split.
Qed.

(** X5. The two writes of a refund are not one unit either: when the
    order write throws, the payment stays REFUNDED, the order keeps its
    status, and the caller is told the refund failed. *)
Theorem refundPayment_order_write_throws
  (env : Env) (paymentId : Z) (amt : option Z) (w : World) (p : Payment)
  (e : Thrown) :
  dbFault env (PaymentFindUnique paymentId) = None ->
  dbFault env (PaymentUpdate paymentId) = None ->
  dbFault env (OrderUpdate (payment_orderId p)) = Some e ->
  payment_by_id w paymentId = Some p ->
  payment_status p = COMPLETED ->
  exists w' p',
    refundPayment env paymentId amt w =
    (RefundFailed (error_message_or "Failed to refund payment" e), w') /\
    payment_by_id w' paymentId = Some p' /\
    payment_status p' = REFUNDED /\
    orders w' = orders w.
Proof.
  intros F1 F2 F3 Hp Hst.
  destruct (payment_update_run env paymentId (refunded_payment env p amt) w p
              F2 Hp) as (tP & HtP & HrunP).
  exists (with_payments w tP), (refunded_payment env p amt p).
  split.
  - unfold refundPayment, refundPayment_try.
    erewrite bind_returned
      by (unfold payment_findUnique; rewrite db_call_no_fault by exact F1;
          rewrite Hp; reflexivity).
    cbv beta iota. rewrite Hst.
    change (negb (PaymentStatus_eqb COMPLETED COMPLETED)) with false.
    cbv beta iota.
    rewrite (bind_returned _ _ _ _ _ HrunP).
    erewrite bind_threw; [reflexivity|].
    unfold order_update. now apply db_call_fault.
  - unfold payment_by_id. simpl. repeat split.
    eapply update_row_same; [|exact HtP]. reflexivity.
Qed.

Lemma refundPayment_order_write_throws_witness :
  exists w' p',
    refundPayment (test_env shipped order_write_fails) 1 None shop_after_payment =
    (RefundFailed "Can't reach database server", w') /\
    payment_by_id w' 1 = Some p' /\
    payment_status p' = REFUNDED /\
    orders w' = orders shop_after_payment.
Proof.
  apply (refundPayment_order_write_throws
           (test_env shipped order_write_fails) 1 None shop_after_payment
           paid_payment (ThrownError "Can't reach database server")).
  - reflexivity.
  - reflexivity.
  - reflexivity.
  - reflexivity.
  - reflexivity.
Defined.

(** ** [processPayment], case by case *)

(** Every run of [processPayment], by where it stops: before any write;
    after the payment write; after the order write; or after the order
    was fulfilled as far as it got. *)
Lemma processPayment_world (env : Env) (data : ProcessPaymentData) (w : World) :
  let w' := snd (processPayment env data w) in
  w' = w \/
  exists p p0 tP,
    find (payment_matches (orderId data) (razorpayOrderId data)) (payments w)
    = Some p /\
    payment_by_id w (payment_id p) = Some p0 /\
    update_row payment_id (payment_id p)
      (verified_payment env data p
         (if isValidPayment env data then COMPLETED else FAILED)) (payments w)
    = Some (verified_payment env data p
              (if isValidPayment env data then COMPLETED else FAILED) p0, tP) /\
    (w' = with_payments w tP \/
     exists o tO,
       order_by_id w (orderId data) = Some o /\
       update_row order_id (orderId data)
         (set_order_status
            (if isValidPayment env data then ORDER_CONFIRMED else ORDER_FAILED))
         (orders w)
       = Some (set_order_status
                 (if isValidPayment env data
                  then ORDER_CONFIRMED else ORDER_FAILED) o, tO) /\
       (w' = with_orders (with_payments w tP) tO \/
        (isValidPayment env data = true /\
         w' = snd (fulfil_order env (orderId data)
                     (items_of_order w (orderId data))
                     (with_orders (with_payments w tP) tO))))).
Proof.
  simpl.
  destruct (dbFault env PaymentFindFirst) as [e|] eqn:F1.
  { left. now rewrite (processPayment_lookup_throws env data w e F1). }
  destruct (find (payment_matches (orderId data) (razorpayOrderId data))
              (payments w)) as [p|] eqn:Hfind.
  2:{ left. unfold processPayment, processPayment_try.
      rewrite (bind_returned _ _ _ _ _ (payment_findFirst_run env _ _ w F1)).
      now rewrite Hfind. }
  destruct (dbFault env (PaymentUpdate (payment_id p))) as [e|] eqn:F2.
  { left. unfold processPayment, processPayment_try.
    rewrite (bind_returned _ _ _ _ _ (payment_findFirst_run env _ _ w F1)).
    rewrite Hfind.
    erewrite bind_threw; [reflexivity|].
    unfold payment_update. apply db_call_fault. exact F2. }
  right.
  destruct (processPayment_payment_written env data w p F1 F2 Hfind)
    as (p0 & tP & Hp0 & HtP & Hrun).
  exists p, p0, tP. repeat split; try assumption.
  destruct (dbFault env (OrderUpdate (orderId data))) as [e|] eqn:F3.
  { left.
    destruct (processPayment_order_write_throws env data w p F1 F2 Hfind e F3)
      as (p1 & tP1 & _ & HtP1 & Hrun1).
    rewrite HtP in HtP1. assert (tP1 = tP) as -> by congruence.
    now rewrite Hrun1. }
  destruct (order_by_id w (orderId data)) as [o|] eqn:Ho.
  2:{ left. unfold processPayment. rewrite Hrun.
      erewrite bind_threw; [reflexivity|].
      unfold order_update. rewrite db_call_no_fault by exact F3.
      unfold order_by_id in Ho. simpl.
      now rewrite (update_row_missing order_id _ _ _ Ho). }
  right.
  destruct (processPayment_statuses_written env data w p o F1 F2 Hfind F3 Ho)
    as (p1 & tP1 & tO & _ & HtP1 & HtO & Hrun1).
  rewrite HtP in HtP1. assert (tP1 = tP) as -> by congruence.
  assert (Hp1 : verified_payment env data p
                  (if isValidPayment env data then COMPLETED else FAILED) p1
                = verified_payment env data p
                    (if isValidPayment env data then COMPLETED else FAILED) p0)
    by congruence.
  exists o, tO. repeat split; try assumption.
  unfold processPayment. rewrite Hrun1. unfold bind.
  destruct (isValidPayment env data).
  - right. split; [reflexivity|].
    now destruct (fulfil_order env (orderId data) (items_of_order w (orderId data))
                    (with_orders (with_payments w tP) tO)) as [[[]|e] w2].
  - left. reflexivity.
Qed.

Lemma verified_payment_verdict (env : Env) (data : ProcessPaymentData)
  (found row : Payment) :
  verdict_step row
    (verified_payment env data found
       (if isValidPayment env data then COMPLETED else FAILED) row).
Proof.
  right. split; [reflexivity|].
  destruct (isValidPayment env data); simpl; [left|right]; split;
    try reflexivity. discriminate.
Qed.

(** X6. Whatever happens, one call of [processPayment] changes payment
    rows only by writing a verdict (COMPLETED with a payment date, or
    FAILED without one) and never writes PENDING or REFUNDED; it changes
    order rows in their status only, adds and removes no row, keeps who
    each payment is (id, order, method, gateway, amount, currency,
    transaction id), and leaves the order items alone. *)
Theorem processPayment_touches_statuses_only
  (env : Env) (data : ProcessPaymentData) (w : World) :
  let w' := snd (processPayment env data w) in
  Forall2 verdict_step (payments w) (payments w') /\
  Forall2 status_step (orders w) (orders w') /\
  map payment_identity (payments w') = map payment_identity (payments w) /\
  orderItems w' = orderItems w.
Proof.
  assert (Hre : forall x, verdict_step x x) by (intros x; now left).
  assert (Hst : forall x, status_step x x) by (intros x; repeat split).
  assert (Hid : forall x y, verdict_step x y ->
                            payment_identity y = payment_identity x).
  { intros x y [->|[H _]]; [reflexivity|exact H]. }
  assert (Hmain :
    let w' := snd (processPayment env data w) in
    Forall2 verdict_step (payments w) (payments w') /\
    Forall2 status_step (orders w) (orders w') /\
    orderItems w' = orderItems w).
  { simpl.
    destruct (processPayment_world env data w)
      as [->|(p & p0 & tP & _ & Hp0 & HtP & Hcase)].
    - repeat split; auto using Forall2_refl.
    - assert (HP : Forall2 verdict_step (payments w) tP).
      { eapply update_row_Forall2; [exact Hre|exact Hp0| |exact HtP].
        apply verified_payment_verdict. }
      destruct Hcase as [->|(o & tO & Ho & HtO & Hcase)]; simpl.
      + repeat split; auto using Forall2_refl.
      + assert (HO : Forall2 status_step (orders w) tO).
        { eapply update_row_Forall2; [exact Hst|exact Ho| |exact HtO].
          repeat split. }
        destruct Hcase as [->|[_ ->]]; simpl; [repeat split; auto|].
        destruct (fulfil_order_frame env (orderId data)
                    (items_of_order w (orderId data))
                    (with_orders (with_payments w tP) tO))
          as (-> & -> & ->).
        simpl. repeat split; auto. }
  simpl in *. destruct Hmain as (HP & HO & HI).
  repeat split; auto.
  eapply Forall2_map_eq; [exact Hid|exact HP].
Qed.

(** ** Stock *)

Lemma product_update_returns (env : Env) (id : Z) (f : Product -> Product)
  (w w1 : World) (p : Product) :
  product_update env id f w = (Returned p, w1) ->
  exists p0,
    product_by_id w id = Some p0 /\
    update_row product_id id f (products w) = Some (f p0, products w1).
Proof.
  unfold product_update, db_call.
  destruct (dbFault env (ProductUpdate id)); [discriminate|].
  destruct (update_row product_id id f (products w)) as [[p' t]|] eqn:E;
    [|discriminate].
  intros H. injection H as <- <-.
  destruct (update_row_inv product_id id f _ _ _ E) as (p0 & Hp0 & ->).
  now exists p0.
Qed.

(** When the loop runs to its end, every product has lost exactly what
    the items ask of it. *)
Lemma decrement_items_stock (env : Env) (items : list OrderItem)
  (w w' : World) (pid : Z) (pr : Product) :
  decrement_items env items w = (Returned tt, w') ->
  product_by_id w pid = Some pr ->
  exists pr', product_by_id w' pid = Some pr' /\
              stock pr' = stock pr - quantity_of pid items.
Proof.
  revert w pr. induction items as [|it rest IH]; intros w pr; simpl.
  - unfold ret. intros H Hpr. injection H as <-. exists pr. split; [exact Hpr|lia].
  - unfold bind.
    destruct (product_update env (item_productId it)
                (decrement_stock (quantity it)) w) as [[p|e] w1] eqn:E;
      [|discriminate].
    intros Hrest Hpr.
    destruct (product_update_returns _ _ _ _ _ _ E) as (p0 & Hp0 & Hup).
    destruct (Z.eqb_spec (item_productId it) pid) as [Heq|Hne].
    + subst pid. rewrite Hpr in Hp0. injection Hp0 as <-.
      assert (H1 : product_by_id w1 (item_productId it)
                   = Some (decrement_stock (quantity it) pr)).
      { unfold product_by_id. eapply update_row_same; [|exact Hup]. reflexivity. }
      destruct (IH w1 _ Hrest H1) as (pr' & Hpr' & Hs).
      exists pr'. split; [exact Hpr'|]. rewrite Hs. simpl. lia.
    + assert (H1 : product_by_id w1 pid = Some pr).
      { unfold product_by_id.
        erewrite update_row_other; [exact Hpr| |exact Hup|congruence].
        reflexivity. }
      destruct (IH w1 _ Hrest H1) as (pr' & Hpr' & Hs).
      exists pr'. split; [exact Hpr'|exact Hs].
Qed.

Lemma Forall2_trans {A : Type} (R : A -> A -> Prop) (l1 l2 l3 : list A) :
  (forall x y z, R x y -> R y z -> R x z) ->
  Forall2 R l1 l2 -> Forall2 R l2 l3 -> Forall2 R l1 l3.
Proof.
  intros Htr H12. revert l3.
  induction H12 as [|x y l1 l2 Hxy _ IH]; intros l3 H23; inversion H23; subst;
    constructor; eauto.
Qed.

(** However far the loop gets, no stock has grown, provided no item has
    a negative quantity. *)
Lemma decrement_items_not_raised (env : Env) (items : list OrderItem)
  (w : World) :
  (forall it, In it items -> 0 <= quantity it) ->
  Forall2 stock_not_raised (products w)
          (products (snd (decrement_items env items w))).
Proof.
  assert (Hrefl : forall x, stock_not_raised x x)
    by (intros x; split; [reflexivity|lia]).
  assert (Htr : forall x y z, stock_not_raised x y -> stock_not_raised y z ->
                              stock_not_raised x z).
  { intros x y z [H1 H2] [H3 H4]. split; [congruence|lia]. }
  revert w. induction items as [|it rest IH]; intros w Hq; simpl.
  - now apply Forall2_refl.
  - unfold bind.
    destruct (product_update env (item_productId it)
                (decrement_stock (quantity it)) w) as [[p|e] w1] eqn:E.
    + destruct (product_update_returns _ _ _ _ _ _ E) as (p0 & Hp0 & Hup).
      eapply Forall2_trans; [exact Htr| |apply IH; intros; apply Hq; now right].
      eapply update_row_Forall2; [exact Hrefl|exact Hp0| |exact Hup].
      split; [reflexivity|]. simpl. specialize (Hq it (or_introl eq_refl)). lia.
    + simpl. unfold product_update, db_call in E.
      destruct (dbFault env (ProductUpdate (item_productId it))).
      * injection E as _ <-. now apply Forall2_refl.
      * destruct (update_row product_id (item_productId it)
                    (decrement_stock (quantity it)) (products w)) as [[p' t]|];
          [discriminate|].
        injection E as _ <-. now apply Forall2_refl.
Qed.

(** A blocked stock write makes the loop throw. *)
Lemma decrement_items_throws (env : Env) (items : list OrderItem) (w : World) :
  stock_write_blocked env w items ->
  exists e w', decrement_items env items w = (Threw e, w').
Proof.
  revert w. induction items as [|it rest IH]; intros w (bad & Hin & Hbad).
  - destruct Hin.
  - simpl. unfold bind.
    destruct (product_update env (item_productId it)
                (decrement_stock (quantity it)) w) as [[p|e] w1] eqn:E;
      [|eauto].
    destruct (product_update_returns _ _ _ _ _ _ E) as (p0 & Hp0 & Hup).
    assert (Hfault : dbFault env (ProductUpdate (item_productId it)) = None).
    { unfold product_update, db_call in E.
      destruct (dbFault env (ProductUpdate (item_productId it)));
        [discriminate|reflexivity]. }
    apply IH. destruct Hin as [<-|Hin].
    + destruct Hbad as [Hf|Hm]; [contradiction|]. rewrite Hp0 in Hm. discriminate.
    + exists bad. split; [exact Hin|].
      destruct Hbad as [Hf|Hm]; [now left|right].
      destruct (Z.eq_dec (item_productId bad) (item_productId it)) as [Heq|Hne].
      * rewrite Heq in Hm. rewrite Hp0 in Hm. discriminate.
      * unfold product_by_id.
        erewrite update_row_other; [exact Hm| |exact Hup|exact Hne].
        reflexivity.
Qed.

(** X7. When a verified payment's stock writes all go through, every
    product ends with its stock less the total quantity the order's items
    ask of it: an item counts once per line, two lines of one product add
    up, and nothing stops the stock from going below zero. *)
Theorem processPayment_stock_accounting
  (env : Env) (data : ProcessPaymentData) (w : World) (p : Payment) (o : Order)
  (pid : Z) (pr : Product) :
  no_db_fault env ->
  find (payment_matches (orderId data) (razorpayOrderId data)) (payments w)
  = Some p ->
  order_by_id w (orderId data) = Some o ->
  (forall it, In it (items_of_order w (orderId data)) ->
              product_by_id w (item_productId it) <> None) ->
  verification_succeeds env data ->
  product_by_id w pid = Some pr ->
  exists pr',
    product_by_id (snd (processPayment env data w)) pid = Some pr' /\
    stock pr' = stock pr - quantity_of pid (items_of_order w (orderId data)).
Proof.
  intros NF Hfind Hord Hprod HV Hpr.
  apply isValidPayment_spec in HV.
  destruct (processPayment_accepted env data w p o NF Hfind Hord Hprod HV)
    as (p0 & tP & tO & w1 & _ & _ & Hdec & Hrun).
  rewrite Hrun. simpl.
  destruct (decrement_items_stock env _ _ _ pid pr Hdec Hpr) as (pr' & H1 & H2).
  exists pr'. split; [exact H1|exact H2].
Qed.

Lemma processPayment_stock_accounting_witness :
  exists pr',
    product_by_id
      (snd (processPayment (test_env shipped no_faults) checkout shop_low_stock))
      7 = Some pr' /\
    stock pr' = 1 - 3.
Proof.
  apply (processPayment_stock_accounting
           (test_env shipped no_faults) checkout shop_low_stock
           (payment1 PENDING None) order1001 7 (mkProduct 7 1)).
  - unfold no_db_fault. intros op. reflexivity.
  - reflexivity.
  - reflexivity.
  - intros it [<-|[]]. discriminate.
  - split; [reflexivity|]. exists "pay_xyz", "sig_ok".
    repeat split; try reflexivity; discriminate.
  - reflexivity.
Defined.

(** X8. Whatever happens, one call of [processPayment] never raises the
    stock of a product (no item having a negative quantity), adds and
    removes no product, and issues at most one shipment-creation call,
    for the order of the call. *)
Theorem processPayment_stock_never_raised
  (env : Env) (data : ProcessPaymentData) (w : World) :
  (forall it, In it (orderItems w) -> 0 <= quantity it) ->
  let w' := snd (processPayment env data w) in
  Forall2 stock_not_raised (products w) (products w') /\
  (shipmentCalls w' = shipmentCalls w \/
   shipmentCalls w' = (shipmentCalls w ++ [orderId data])%list).
Proof.
  intros Hq. simpl.
  assert (Hrefl : forall x, stock_not_raised x x)
    by (intros x; split; [reflexivity|lia]).
  destruct (processPayment_world env data w)
    as [->|(p & p0 & tP & _ & _ & _ & [->|(o & tO & _ & _ & [->|[_ ->]])])];
    simpl; try (split; [now apply Forall2_refl|now left]).
  set (w2 := with_orders (with_payments w tP) tO).
  set (items := items_of_order w (orderId data)).
  assert (Hitems : forall it, In it items -> 0 <= quantity it).
  { intros it Hin. apply Hq. unfold items, items_of_order in Hin.
    apply filter_In in Hin. tauto. }
  pose proof (decrement_items_not_raised env items w2 Hitems) as Hd.
  pose proof (decrement_items_frame env items w2) as Hf.
  destruct (decrement_items env items w2) as [[[]|e] w3] eqn:E; simpl in Hd, Hf.
  - rewrite (fulfil_order_run _ _ _ _ _ E). simpl.
    split; [exact Hd|]. right. destruct Hf as (_ & _ & _ & ->). reflexivity.
  - unfold fulfil_order. rewrite (bind_threw _ _ _ _ _ E). simpl.
    split; [exact Hd|]. left. tauto.
Qed.

Lemma processPayment_stock_never_raised_witness :
  let w' := snd (processPayment (test_env shipped no_faults) checkout shop) in
  Forall2 stock_not_raised (products shop) (products w') /\
  (shipmentCalls w' = shipmentCalls shop \/
   shipmentCalls w' = (shipmentCalls shop ++ [1001])%list).
Proof.
  apply (processPayment_stock_never_raised
           (test_env shipped no_faults) checkout shop).
  intros it [<-|[]]. simpl. lia.
Defined.

(** X9. When the payment is verified and both status writes go through
    but a stock write is blocked, the caller is told [{success:false}]
    although the payment is COMPLETED and the order CONFIRMED; no
    shipment-creation call is issued. *)
Theorem processPayment_stock_write_blocked
  (env : Env) (data : ProcessPaymentData) (w : World) (p : Payment) (o : Order) :
  dbFault env PaymentFindFirst = None ->
  dbFault env (PaymentUpdate (payment_id p)) = None ->
  dbFault env (OrderUpdate (orderId data)) = None ->
  find (payment_matches (orderId data) (razorpayOrderId data)) (payments w)
  = Some p ->
  order_by_id w (orderId data) = Some o ->
  verification_succeeds env data ->
  stock_write_blocked env w (items_of_order w (orderId data)) ->
  let w' := snd (processPayment env data w) in
  exists msg p' o',
    fst (processPayment env data w) = ProcessFailed msg /\
    payment_by_id w' (payment_id p) = Some p' /\
    payment_status p' = COMPLETED /\
    order_by_id w' (orderId data) = Some o' /\
    order_status o' = ORDER_CONFIRMED /\
    shipmentCalls w' = shipmentCalls w.
Proof.
  intros F1 F2 F3 Hfind Hord HV Hblocked. simpl.
  apply isValidPayment_spec in HV.
  destruct (processPayment_final_statuses env data w p o F1 F2 Hfind F3 Hord)
    as (p' & o' & Hp' & Ho' & Hps & _ & Hos).
  rewrite HV in Hps, Hos.
  destruct (processPayment_statuses_written env data w p o F1 F2 Hfind F3 Hord)
    as (p0 & tP & tO & _ & _ & _ & Hrun).
  rewrite HV in Hrun.
  destruct (decrement_items_throws env (items_of_order w (orderId data))
              (with_orders (with_payments w tP) tO)) as (e & w3 & Hthrow).
  { exact Hblocked. }
  pose proof (decrement_items_frame env (items_of_order w (orderId data))
                (with_orders (with_payments w tP) tO)) as Hf.
  rewrite Hthrow in Hf. simpl in Hf.
  assert (Hres : processPayment env data w =
                 (ProcessFailed (error_message_or "Failed to process payment" e),
                  w3)).
  { unfold processPayment. rewrite Hrun.
    erewrite bind_threw; [reflexivity|].
    unfold fulfil_order. now rewrite (bind_threw _ _ _ _ _ Hthrow). }
  rewrite Hres in Hp', Ho'. rewrite Hres. simpl in *.
  exists (error_message_or "Failed to process payment" e), p', o'.
  repeat split; try assumption. tauto.
Qed.

Lemma processPayment_stock_write_blocked_witness :
  let w' := snd (processPayment (test_env shipped no_faults) checkout
                   shop_no_product) in
  exists msg p' o',
    fst (processPayment (test_env shipped no_faults) checkout shop_no_product)
    = ProcessFailed msg /\
    payment_by_id w' 1 = Some p' /\
    payment_status p' = COMPLETED /\
    order_by_id w' 1001 = Some o' /\
    order_status o' = ORDER_CONFIRMED /\
    shipmentCalls w' = shipmentCalls shop_no_product.
Proof.
  apply (processPayment_stock_write_blocked
           (test_env shipped no_faults) checkout shop_no_product
           (payment1 PENDING None) order1001).
  - reflexivity.
  - reflexivity.
  - reflexivity.
  - reflexivity.
  - reflexivity.
  - split; [reflexivity|]. exists "pay_xyz", "sig_ok".
    repeat split; try reflexivity; discriminate.
  - exists item1. split; [now left|]. right. reflexivity.
Defined.

(** ** What is kept in [gatewayResponse] *)

Lemma processPayment_final_payment_row
  (env : Env) (data : ProcessPaymentData) (w : World) (p : Payment) (o : Order) :
  dbFault env PaymentFindFirst = None ->
  dbFault env (PaymentUpdate (payment_id p)) = None ->
  dbFault env (OrderUpdate (orderId data)) = None ->
  find (payment_matches (orderId data) (razorpayOrderId data)) (payments w)
  = Some p ->
  order_by_id w (orderId data) = Some o ->
  exists p0,
    payment_by_id w (payment_id p) = Some p0 /\
    payment_by_id (snd (processPayment env data w)) (payment_id p)
    = Some (verified_payment env data p
              (if isValidPayment env data then COMPLETED else FAILED) p0).
Proof.
  intros F1 F2 F3 Hfind Hord.
  destruct (processPayment_statuses_written env data w p o F1 F2 Hfind F3 Hord)
    as (p0 & tP & tO & Hp0 & HtP & HtO & Hrun).
  exists p0. split; [exact Hp0|].
  assert (Hw : payments (snd (processPayment env data w)) = tP).
  { unfold processPayment. rewrite Hrun. unfold bind.
    destruct (isValidPayment env data); [|reflexivity].
    pose proof (fulfil_order_frame env (orderId data)
                  (items_of_order w (orderId data))
                  (with_orders (with_payments w tP) tO)) as Hf.
    destruct (fulfil_order env (orderId data) (items_of_order w (orderId data))
                (with_orders (with_payments w tP) tO)) as [[[]|e] w2];
      simpl in *; tauto. }
  unfold payment_by_id. rewrite Hw.
  eapply update_row_same; [|exact HtP]. reflexivity.
Qed.

(** X10. When the status writes go through, the payment's
    [gatewayResponse] afterwards carries [verifiedAt], the payment id and
    the signature that were submitted, and every property the found
    record's [gatewayResponse] had under another name: what the gateway
    answered when the order was created is kept. *)
Theorem processPayment_gatewayResponse_kept
  (env : Env) (data : ProcessPaymentData) (w : World) (p : Payment) (o : Order) :
  dbFault env PaymentFindFirst = None ->
  dbFault env (PaymentUpdate (payment_id p)) = None ->
  dbFault env (OrderUpdate (orderId data)) = None ->
  find (payment_matches (orderId data) (razorpayOrderId data)) (payments w)
  = Some p ->
  order_by_id w (orderId data) = Some o ->
  exists p' props,
    payment_by_id (snd (processPayment env data w)) (payment_id p) = Some p' /\
    gatewayResponse p' = JObj props /\
    assoc_get "verifiedAt" props = JStr (nowISO env) /\
    (forall pid, razorpayPaymentId data = Some pid ->
                 assoc_get "paymentId" props = JStr pid) /\
    (forall sg, razorpaySignature data = Some sg ->
                assoc_get "signature" props = JStr sg) /\
    (forall k,
        k <> "verifiedAt" -> k <> "paymentId" -> k <> "signature" ->
        is_undefined (assoc_get k (js_spread (gatewayResponse p))) = false ->
        assoc_get k props = assoc_get k (js_spread (gatewayResponse p))).
Proof.
  intros F1 F2 F3 Hfind Hord.
  destruct (processPayment_final_payment_row env data w p o F1 F2 F3 Hfind Hord)
    as (p0 & _ & Hrow).
  eexists. eexists. split; [exact Hrow|]. split; [reflexivity|].
  split; [|split; [|split]].
  - rewrite assoc_get_stored; now rewrite assoc_get_set_same.
  - intros pid Hpid. rewrite Hpid. simpl.
    rewrite assoc_get_stored;
      (do 2 (rewrite assoc_get_set_other by discriminate);
       now rewrite assoc_get_set_same).
  - intros sg Hsg. rewrite Hsg. simpl.
    rewrite assoc_get_stored;
      (rewrite assoc_get_set_other by discriminate;
       now rewrite assoc_get_set_same).
  - intros k H1 H2 H3 Hdef.
    rewrite assoc_get_stored;
      do 3 (rewrite assoc_get_set_other by assumption);
      [reflexivity|exact Hdef].
Qed.

Lemma processPayment_gatewayResponse_kept_witness :
  exists p' props,
    payment_by_id
      (snd (processPayment (test_env shipped no_faults) checkout shop)) 1
    = Some p' /\
    gatewayResponse p' = JObj props /\
    assoc_get "verifiedAt" props = JStr "2023-11-14T22:13:20.000Z" /\
    (forall pid, Some "pay_xyz" = Some pid ->
                 assoc_get "paymentId" props = JStr pid) /\
    (forall sg, Some "sig_ok" = Some sg ->
                assoc_get "signature" props = JStr sg) /\
    (forall k,
        k <> "verifiedAt" -> k <> "paymentId" -> k <> "signature" ->
        is_undefined (assoc_get k [("id", JStr "order_abc")]) = false ->
        assoc_get k props = assoc_get k [("id", JStr "order_abc")]).
Proof.
  apply (processPayment_gatewayResponse_kept
           (test_env shipped no_faults) checkout shop
           (payment1 PENDING None) order1001);
    reflexivity.
Defined.

(** ** [createPaymentOrder], case by case *)

Lemma next_id_above {A : Type} (key : A -> Z) (rows : list A) (r : A) :
  In r rows -> key r < next_id key rows.
Proof.
  unfold next_id. intros Hin.
  assert (H : key r <= fold_right (fun x m => Z.max (key x) m) 0 rows).
  { induction rows as [|x rest IH]; [contradiction|].
    cbn [fold_right]. destruct Hin as [->|Hin]; [lia|].
    specialize (IH Hin). lia. }
  lia.
Qed.

(** X11. [createPaymentOrder] either fails and leaves the state as it
    was, or finds the order, has the gateway create an order for the
    amount in the gateway's unit with the receipt of the order number,
    and appends one payment: PENDING, without [paidAt], for that order
    and amount and with gateway 'razorpay', under an id larger than every
    id in use, and with the gateway's order id as [transactionId]. Orders,
    items, products and the shipment log are never touched. *)
Theorem createPaymentOrder_all_or_nothing
  (env : Env) (data : CreatePaymentOrderData) (w : World) :
  (snd (createPaymentOrder env data w) = w /\
   exists err, fst (createPaymentOrder env data w) = CreateFailed err) \/
  (exists o req rzp pay,
      order_by_id w (cpo_orderId data) = Some o /\
      createRazorpayOrder env req = RazorpayCreated rzp /\
      req_amount req = convertToPaise env (cpo_amount data) /\
      req_currency req = cpo_currency data /\
      req_receipt req = generateReceiptId env (orderNumber o) /\
      createPaymentOrder env data w =
      (CreateSucceeded rzp pay (order_id o, orderNumber o, totalAmount o),
       with_payments w (payments w ++ [pay])) /\
      payment_status pay = PENDING /\ paidAt pay = None /\
      payment_orderId pay = cpo_orderId data /\
      amount pay = cpo_amount data /\ currency pay = cpo_currency data /\
      gateway pay = Some "razorpay" /\
      (forall t, assoc_get "id" rzp = JStr t -> transactionId pay = Some t) /\
      (forall p, In p (payments w) -> payment_id p < payment_id pay)).
Proof.
  unfold createPaymentOrder, createPaymentOrder_try, bind, order_findUnique,
    db_call.
  destruct (dbFault env (OrderFindUnique (cpo_orderId data))) as [e|];
    [left; simpl; eauto|].
  destruct (order_by_id w (cpo_orderId data)) as [o|] eqn:Ho;
    [|left; simpl; eauto].
  cbv beta iota.
  match goal with
  | |- context [createRazorpayOrder env ?r] => set (req := r)
  end.
  destruct (createRazorpayOrder env req) as [rzp|err|e] eqn:Hgw;
    [|left; simpl; eauto|left; simpl; eauto].
  destruct (text_column (assoc_get "id" rzp)) as [tx|e] eqn:Htx;
    [|left; simpl; eauto].
  unfold payment_create, db_call.
  destruct (dbFault env PaymentCreate) as [e|]; [left; simpl; eauto|].
  right. simpl.
  exists o, req, rzp.
  eexists. split; [reflexivity|]. split; [exact Hgw|].
  repeat (split; [reflexivity|]).
  split; [simpl; now apply (row_by_id_key order_id) in Ho|].
  repeat (split; [reflexivity|]).
  split.
  - intros t Ht. simpl. rewrite Ht in Htx. simpl in Htx. congruence.
  - intros p Hin. simpl. now apply next_id_above.
Qed.

Lemma refundPayment_payment_steps
  (env : Env) (paymentId : Z) (amt : option Z) (w : World) :
  Forall2 refund_step (payments w)
          (payments (snd (refundPayment env paymentId amt w))).
Proof.
  assert (Hre : forall x, refund_step x x) by (intros x; now left).
  destruct (refundPayment_cases env paymentId amt w)
    as [[-> _]|(p & tP & Hp & Hs & HtP & Hcase)].
  - now apply Forall2_refl.
  - assert (HP : Forall2 refund_step (payments w) tP).
    { eapply update_row_Forall2; [exact Hre|exact Hp| |exact HtP].
      right. repeat split. exact Hs. }
    destruct Hcase as [[-> _]|(o & tO & _ & _ & ->)]; exact HP.
Qed.

Lemma processPayment_payment_steps
  (env : Env) (data : ProcessPaymentData) (w : World) :
  Forall2 verdict_step (payments w)
          (payments (snd (processPayment env data w))).
Proof.
  assert (Hre : forall x, verdict_step x x) by (intros x; now left).
  destruct (processPayment_world env data w)
    as [->|(p & p0 & tP & _ & Hp0 & HtP & Hcase)].
  - now apply Forall2_refl.
  - assert (HP : Forall2 verdict_step (payments w) tP).
    { eapply update_row_Forall2; [exact Hre|exact Hp0| |exact HtP].
      apply verified_payment_verdict. }
    destruct Hcase as [->|(o & tO & _ & _ & [->|[_ ->]])]; try exact HP.
    destruct (fulfil_order_frame env (orderId data)
                (items_of_order w (orderId data))
                (with_orders (with_payments w tP) tO)) as (_ & _ & ->).
    exact HP.
Qed.

(** A call that succeeds appended the payment it returns; a call that
    fails wrote nothing. *)
Lemma createPaymentOrder_succeeded
  (env : Env) (data : CreatePaymentOrderData) (w w1 : World)
  (rzp : list (string * JValue)) (pay : Payment) (info : Z * string * Z) :
  createPaymentOrder env data w = (CreateSucceeded rzp pay info, w1) ->
  exists o,
    order_by_id w (cpo_orderId data) = Some o /\
    w1 = with_payments w (payments w ++ [pay]) /\
    payment_orderId pay = cpo_orderId data /\
    payment_status pay = PENDING /\ paidAt pay = None /\
    (forall t, assoc_get "id" rzp = JStr t -> transactionId pay = Some t) /\
    (forall p, In p (payments w) -> payment_id p < payment_id pay).
Proof.
  unfold createPaymentOrder, createPaymentOrder_try, bind, order_findUnique,
    db_call.
  destruct (dbFault env (OrderFindUnique (cpo_orderId data))) as [e|];
    [discriminate|].
  destruct (order_by_id w (cpo_orderId data)) as [o|] eqn:Ho; [|discriminate].
  cbv beta iota.
  destruct (createRazorpayOrder env _) as [rzp'|err|e]; try discriminate.
  destruct (text_column (assoc_get "id" rzp')) as [tx|e] eqn:Htx;
    [|discriminate].
  unfold payment_create, db_call.
  destruct (dbFault env PaymentCreate) as [e|]; [discriminate|].
  simpl. intros H. injection H as <- <- _ <-.
  exists o. split; [reflexivity|]. split; [reflexivity|].
  split; [simpl; now apply (row_by_id_key order_id) in Ho|].
  repeat (split; [reflexivity|]).
  split.
  - intros t Ht. simpl. rewrite Ht in Htx. simpl in Htx. congruence.
  - intros p Hin. simpl. now apply next_id_above.
Qed.

Lemma createPaymentOrder_failed
  (env : Env) (data : CreatePaymentOrderData) (w w1 : World) (err : JValue) :
  createPaymentOrder env data w = (CreateFailed err, w1) -> w1 = w.
Proof.
  unfold createPaymentOrder, createPaymentOrder_try, bind, order_findUnique,
    db_call.
  destruct (dbFault env (OrderFindUnique (cpo_orderId data))) as [e|];
    [simpl; congruence|].
  destruct (order_by_id w (cpo_orderId data)) as [o|]; [|simpl; congruence].
  cbv beta iota.
  destruct (createRazorpayOrder env _) as [rzp'|err'|e];
    [|simpl; congruence|simpl; congruence].
  destruct (text_column (assoc_get "id" rzp')) as [tx|e]; [|simpl; congruence].
  unfold payment_create, db_call.
  destruct (dbFault env PaymentCreate) as [e|]; [simpl; congruence|].
  simpl. discriminate.
Qed.

(** X12. The ids of the payments stay pairwise distinct under all three
    writing operations: a new payment gets an unused id, and no operation
    changes the id of a row. *)
Theorem payment_ids_stay_unique (env : Env) (w : World) :
  NoDup (map payment_id (payments w)) ->
  (forall data,
      NoDup (map payment_id (payments (snd (createPaymentOrder env data w))))) /\
  (forall data,
      NoDup (map payment_id (payments (snd (processPayment env data w))))) /\
  (forall paymentId amt,
      NoDup (map payment_id
               (payments (snd (refundPayment env paymentId amt w))))).
Proof.
  intros Hnd. repeat split.
  - intros data.
    destruct (createPaymentOrder env data w) as [[err|rzp pay info] w1] eqn:E.
    + apply createPaymentOrder_failed in E. now subst w1.
    + apply createPaymentOrder_succeeded in E.
      destruct E as (o & _ & -> & _ & _ & _ & _ & Hfresh).
      simpl. rewrite map_app. simpl.
      apply NoDup_app; [exact Hnd|repeat constructor; intros []|].
      intros x Hx [<-|[]].
      apply in_map_iff in Hx. destruct Hx as (p & Hid & Hin).
      specialize (Hfresh p Hin). lia.
  - intros data.
    assert (E : map payment_id (payments (snd (processPayment env data w)))
                = map payment_id (payments w)).
    { eapply Forall2_map_eq; [|apply processPayment_payment_steps].
      intros x y [->|[Hid _]]; [reflexivity|].
      unfold payment_identity in Hid. congruence. }
    now rewrite E.
  - intros paymentId amt.
    assert (E : map payment_id (payments (snd (refundPayment env paymentId amt w)))
                = map payment_id (payments w)).
    { eapply Forall2_map_eq; [|apply refundPayment_payment_steps].
      intros x y [->|(_ & _ & Hid & _)]; [reflexivity|].
      unfold payment_identity in Hid. congruence. }
    now rewrite E.
Qed.

Lemma payment_ids_stay_unique_witness :
  NoDup (map payment_id
           (payments (snd (createPaymentOrder (test_env shipped no_faults)
                             new_order_data shop)))).
Proof.
  apply (payment_ids_stay_unique (test_env shipped no_faults) shop).
  simpl. repeat constructor. intros [].
Defined.

(** ** From the created order to the verified payment *)

Lemma find_last {A : Type} (f : A -> bool) (l : list A) (x : A) :
  (forall y, In y l -> f y = false) -> f x = true ->
  find f (l ++ [x]) = Some x.
Proof.
  intros Hl Hx. induction l as [|y rest IH]; simpl.
  - now rewrite Hx.
  - rewrite (Hl y (or_introl eq_refl)). apply IH.
    intros z Hz. apply Hl. now right.
Qed.

(** X13. A payment order created for an order, under a gateway order id
    that no earlier payment of that order carries, is the record that
    [processPayment] finds for that order and gateway order id; with a
    verified signature it ends COMPLETED and the order CONFIRMED. *)
Theorem createPaymentOrder_then_processPayment
  (env env' : Env) (cdata : CreatePaymentOrderData) (data : ProcessPaymentData)
  (w w1 : World) (rzp : list (string * JValue)) (pay : Payment)
  (info : Z * string * Z) (t : string) :
  createPaymentOrder env cdata w = (CreateSucceeded rzp pay info, w1) ->
  assoc_get "id" rzp = JStr t ->
  (forall p, In p (payments w) ->
             payment_matches (cpo_orderId cdata) (Some t) p = false) ->
  orderId data = cpo_orderId cdata ->
  razorpayOrderId data = Some t ->
  no_db_fault env' ->
  verification_succeeds env' data ->
  let w2 := snd (processPayment env' data w1) in
  find (payment_matches (orderId data) (razorpayOrderId data)) (payments w1)
  = Some pay /\
  exists p' o',
    payment_by_id w2 (payment_id pay) = Some p' /\
    payment_status p' = COMPLETED /\
    order_by_id w2 (cpo_orderId cdata) = Some o' /\
    order_status o' = ORDER_CONFIRMED.
Proof.
  intros Hcreate Hid Hnew Hoid Htx NF HV. simpl.
  destruct (createPaymentOrder_succeeded _ _ _ _ _ _ _ Hcreate)
    as (o & Ho & -> & Hpo & _ & _ & Htxp & _).
  assert (Hfind : find (payment_matches (orderId data) (razorpayOrderId data))
                       (payments (with_payments w (payments w ++ [pay])))
                  = Some pay).
  { rewrite Hoid, Htx. simpl. apply find_last; [exact Hnew|].
    unfold payment_matches. rewrite Hpo, Z.eqb_refl, (Htxp t Hid).
    simpl. apply String.eqb_refl. }
  split; [exact Hfind|].
  assert (Hord : order_by_id (with_payments w (payments w ++ [pay]))
                             (orderId data) = Some o).
  { rewrite Hoid. exact Ho. }
  destruct (processPayment_final_statuses env' data _ pay o
              (NF _) (NF _) Hfind (NF _) Hord)
    as (p' & o' & Hp' & Ho' & Hps & _ & Hos).
  apply isValidPayment_spec in HV. rewrite HV in Hps, Hos.
  rewrite Hoid in Ho'. exists p', o'. repeat split; assumption.
Qed.

Lemma createPaymentOrder_then_processPayment_witness :
  let env := test_env shipped no_faults in
  let w1 := snd (createPaymentOrder env new_order_data
                   (mkWorld [order1001] [item1] [] [product7] [])) in
  exists p' o',
    payment_by_id (snd (processPayment env checkout w1)) 1 = Some p' /\
    payment_status p' = COMPLETED /\
    order_by_id (snd (processPayment env checkout w1)) 1001 = Some o' /\
    order_status o' = ORDER_CONFIRMED.
Proof.
  refine (proj2 (createPaymentOrder_then_processPayment
                   (test_env shipped no_faults) (test_env shipped no_faults)
                   new_order_data checkout
                   (mkWorld [order1001] [item1] [] [product7] []) _ _ _ _
                   "order_abc" eq_refl eq_refl _ eq_refl eq_refl _ _)).
  - intros p [].
  - unfold no_db_fault. intros op. reflexivity.
  - split; [reflexivity|]. exists "pay_xyz", "sig_ok".
    repeat split; try reflexivity; discriminate.
Defined.

(** ** [getPaymentDetails] reads *)

Lemma find_agree {A : Type} (f g : A -> bool) (l : list A) :
  (forall x, f x = g x) -> find f l = find g l.
Proof.
  intros H. induction l as [|x rest IH]; simpl; [reflexivity|].
  now rewrite H, IH.
Qed.

(** X14. [getPaymentDetails] never writes, whatever the database does;
    the payment it returns is the first payment of that order in the
    table, with the order row and the items of that order. *)
Theorem getPaymentDetails_reads_first_payment
  (env : Env) (oid : Z) (w : World) :
  snd (getPaymentDetails env oid w) = w /\
  (forall p o items,
      fst (getPaymentDetails env oid w) = DetailsFound (Some (p, o, items)) ->
      find (fun q => payment_orderId q =? oid) (payments w) = Some p /\
      payment_orderId p = oid /\
      o = order_by_id w oid /\
      items = items_of_order w oid).
Proof.
  unfold getPaymentDetails, getPaymentDetails_try, bind, payment_findFirst,
    db_call.
  destruct (dbFault env PaymentFindFirst) as [e|]; simpl.
  - split; [reflexivity|]. discriminate.
  - split; [reflexivity|]. intros p o items H.
    assert (Hext : find (payment_matches oid None) (payments w)
                   = find (fun q => payment_orderId q =? oid) (payments w)).
    { apply find_agree. intros q. unfold payment_matches. apply andb_true_r. }
    rewrite Hext in H.
    destruct (find (fun q => payment_orderId q =? oid) (payments w))
      as [q|] eqn:E; simpl in H; [|discriminate].
    injection H as <- <- <-.
    apply find_some in E. destruct E as [_ E]. apply Z.eqb_eq in E.
    rewrite E. repeat split.
Qed.

(** ** The courier adapter: tracking and cancellation *)

Lemma map_outcome_Forall2 {A B : Type} (f : A -> Outcome B) (l : list A)
  (ys : list B) :
  Delhivery.map_outcome f l = Returned ys ->
  Forall2 (fun x y => f x = Returned y) l ys.
Proof.
  revert ys. induction l as [|x rest IH]; simpl; intros ys H.
  - injection H as <-. constructor.
  - destruct (f x) as [y|e] eqn:E; simpl in H; [|discriminate].
    destruct (Delhivery.map_outcome f rest) as [ys'|e]; simpl in H;
      [|discriminate].
    injection H as <-. constructor; [exact E|now apply IH].
Qed.

Lemma map_outcome_total {A B : Type} (f : A -> Outcome B) (g : A -> B)
  (l : list A) :
  (forall x, f x = Returned (g x)) ->
  Delhivery.map_outcome f l = Returned (map g l).
Proof.
  intros H. induction l as [|x rest IH]; simpl; [reflexivity|].
  now rewrite H, IH.
Qed.

Lemma js_get_not_nullish (v : JValue) (k : string) :
  nullish v = false ->
  Delhivery.js_get v k = Returned (Delhivery.js_get_opt v k).
Proof. destruct v; simpl; try discriminate; reflexivity. Qed.

Lemma js_get_nullish (v : JValue) (k : string) :
  nullish v = true -> exists e, Delhivery.js_get v k = Threw e.
Proof. destruct v; simpl; try discriminate; eauto. Qed.

Lemma truthy_not_nullish (v : JValue) : js_truthy v = true -> nullish v = false.
Proof. destruct v; simpl; try discriminate; reflexivity. Qed.

Lemma normalize_scan_throws (scan : JValue) (e : Thrown) :
  Delhivery.normalize_scan scan = Threw e -> carries_message e.
Proof.
  unfold Delhivery.normalize_scan, Delhivery.and_then.
  repeat match goal with
         | |- context [Delhivery.js_get scan ?k] =>
             let E := fresh "E" in
             destruct (Delhivery.js_get scan k) eqn:E;
             [|intros H; injection H as <-; eapply js_get_throws, E]
         end.
  discriminate.
Qed.

Lemma normalize_shipment_throws (shipment : JValue) (e : Thrown) :
  Delhivery.normalize_shipment shipment = Threw e -> carries_message e.
Proof.
  unfold Delhivery.normalize_shipment, Delhivery.and_then.
  destruct (Delhivery.map_outcome _ Delhivery.tracking_fields)
    as [fields|e1] eqn:E1.
  - unfold Delhivery.normalize_scans, Delhivery.and_then.
    destruct (Delhivery.js_get shipment "Scans") as [sc|e2] eqn:E2.
    + destruct (Delhivery.js_get_opt sc "ScanDetails") as [| | | | |details|];
        cbv beta iota; try discriminate;
        try (intros H; injection H as <-; eexists;
             split; [reflexivity|discriminate]).
      destruct (Delhivery.map_outcome Delhivery.normalize_scan details)
        as [ss|e3] eqn:E3; [discriminate|].
      intros H. injection H as <-.
      eapply map_outcome_throws; [|exact E3].
      intros x e'. apply normalize_scan_throws.
    + intros H. injection H as <-. eapply js_get_throws, E2.
  - intros H. injection H as <-.
    eapply (map_outcome_throws _ carries_message); [|exact E1].
    intros kv e'. unfold Delhivery.and_then.
    destruct (Delhivery.js_get shipment (snd kv)) eqn:E; [discriminate|].
    intros H. injection H as <-. eapply js_get_throws, E.
Qed.

Lemma trackShipment_try_throws (rt : Delhivery.Runtime)
  (svc : Delhivery.DelhiveryService) (waybill : string) (e : Thrown) :
  Delhivery.trackShipment_try rt svc waybill = Threw e -> carries_message e.
Proof.
  unfold Delhivery.trackShipment_try, Delhivery.and_then.
  destruct (Delhivery.makeRequest rt svc _ _ _) as [response|e0] eqn:E0.
  - destruct (js_truthy (Delhivery.response_field response "ShipmentData")
              && Delhivery.js_gt_zero rt _); [|discriminate].
    destruct (Delhivery.shipments_map _) as [ss|e1] eqn:E1; [discriminate|].
    intros H. injection H as <-.
    unfold Delhivery.shipments_map in E1.
    destruct (Delhivery.response_field response "ShipmentData");
      try (injection E1 as <-; eexists; split; [reflexivity|discriminate]).
    eapply map_outcome_throws; [|exact E1].
    intros x e'. apply normalize_shipment_throws.
  - intros H. injection H as <-. eapply makeRequest_throws, E0.
Qed.

Lemma makeRequest_resolved (rt : Delhivery.Runtime)
  (svc : Delhivery.DelhiveryService) (endpoint : string)
  (method : Delhivery.Method) (data : option Delhivery.RequestBody)
  (body : JValue) :
  Delhivery.makeRequest rt svc endpoint method data = Returned body ->
  exists url config,
    Delhivery.axios rt url config = Delhivery.AxiosResolved body.
Proof.
  unfold Delhivery.makeRequest.
  destruct (Delhivery.axios rt _ _) as [b|err] eqn:E.
  - intros H. injection H as <-. eauto.
  - unfold Delhivery.and_then.
    destruct (Delhivery.js_get err "response"); [|discriminate].
    destruct (Delhivery.js_get err "message"); discriminate.
Qed.

(** A normalized entry answers to the courier's entry. *)
Lemma normalize_shipment_tracks (entry : JValue) (t : Delhivery.TrackedShipment) :
  Delhivery.normalize_shipment entry = Returned t -> tracks entry t.
Proof.
  intros H.
  assert (Hnn : nullish entry = false).
  { destruct (nullish entry) eqn:E; [|reflexivity].
    unfold Delhivery.normalize_shipment in H.
    destruct entry; simpl in E; try discriminate E; discriminate H. }
  unfold Delhivery.normalize_shipment in H.
  rewrite (map_outcome_total _
             (fun kv => (fst kv, Delhivery.js_get_opt entry (snd kv)))) in H.
  2:{ intros kv. now rewrite (js_get_not_nullish _ _ Hnn). }
  unfold Delhivery.and_then, Delhivery.normalize_scans in H.
  rewrite (js_get_not_nullish _ _ Hnn) in H.
  match type of H with
  | match ?c with _ => _ end = _ => destruct c as [sc|e] eqn:Es
  end; [|discriminate H].
  injection H as <-. split.
  - intros k src Hin. simpl in Hin.
    repeat (destruct Hin as [Hin|Hin];
            [injection Hin as <- <-; reflexivity|]).
    destruct Hin.
  - unfold Delhivery.and_then in Es. cbv beta iota in Es. simpl. revert Es.
    destruct (Delhivery.js_get_opt (Delhivery.js_get_opt entry "Scans")
                "ScanDetails"); intros Es Hn; try discriminate Hn;
      cbv iota in Es; congruence.
Qed.

(** X15. [trackShipment] never throws: for every waybill and every answer
    of the network it returns either [{success:true}] with at least one
    shipment, or [{success:false}] with no shipment and an error message
    that is a non-empty string; and on success the shipments answer one
    by one, in order, to the entries of the courier's [ShipmentData],
    each property under the adapter's name holding what the courier sent
    under its own ([customer_name] for [Consignee], [return_phone] for
    [ReturnContact], ...), with an empty scan list where the courier sent
    none. *)
Theorem trackShipment_structured_result (rt : Delhivery.Runtime)
  (svc : Delhivery.DelhiveryService) (waybill : string) :
  let r := Delhivery.trackShipment rt svc waybill in
  (Delhivery.trk_success r = true /\ Delhivery.shipment_data r <> [] /\
   Delhivery.trk_error r = None /\
   exists url config body entries,
     Delhivery.axios rt url config = Delhivery.AxiosResolved body /\
     Delhivery.js_get_opt body "ShipmentData" = JArr entries /\
     Forall2 tracks entries (Delhivery.shipment_data r)) \/
  (Delhivery.trk_success r = false /\ Delhivery.shipment_data r = [] /\
   exists s, Delhivery.trk_error r = Some s /\ s <> "").
Proof.
  simpl. unfold Delhivery.trackShipment.
  destruct (Delhivery.trackShipment_try rt svc waybill) as [r|e] eqn:E.
  - unfold Delhivery.trackShipment_try, Delhivery.and_then in E.
    destruct (Delhivery.makeRequest rt svc _ _ _) as [body|e0] eqn:E0;
      [|discriminate].
    destruct (makeRequest_resolved _ _ _ _ _ _ E0) as (url & config & Hax).
    destruct (js_truthy (Delhivery.response_field body "ShipmentData")
              && Delhivery.js_gt_zero rt _) eqn:Epk.
    + left.
      destruct (Delhivery.shipments_map _) as [ss|e1] eqn:E1; [|discriminate].
      injection E as <-. simpl.
      apply andb_prop in Epk. destruct Epk as [Htr Hlen].
      unfold Delhivery.shipments_map in E1.
      assert (Hbody : Delhivery.response_field body "ShipmentData"
                      = Delhivery.js_get_opt body "ShipmentData").
      { unfold Delhivery.response_field in Htr |- *.
        destruct (js_truthy body) eqn:Eb; [reflexivity|congruence]. }
      destruct (Delhivery.response_field body "ShipmentData")
        as [| | | | |entries|] eqn:Edata; try discriminate.
      pose proof (map_outcome_length _ _ _ E1) as Hl.
      simpl in Hlen. apply Z.ltb_lt in Hlen.
      split; [reflexivity|]. split.
      { intros ->. simpl in Hl. rewrite <- Hl in Hlen. simpl in Hlen. lia. }
      split; [reflexivity|].
      exists url, config, body, entries.
      split; [exact Hax|]. split; [now rewrite <- Hbody|].
      apply map_outcome_Forall2 in E1.
      eapply Forall2_impl; [|exact E1].
      intros x y. apply normalize_shipment_tracks.
    + right. injection E as <-. simpl. repeat split.
      eexists. split; [reflexivity|discriminate].
  - right. simpl. repeat split.
    destruct (trackShipment_try_throws rt svc waybill e E) as (m & -> & Hm).
    exists m. now split.
Qed.

Lemma js_or_truthy (a b : JValue) :
  js_truthy b = true -> js_truthy (Delhivery.js_or a b) = true.
Proof. unfold Delhivery.js_or. intros H. now destruct (js_truthy a) eqn:E. Qed.

Lemma cancelShipment_try_throws (rt : Delhivery.Runtime)
  (svc : Delhivery.DelhiveryService) (waybill : string) (e : Thrown) :
  Delhivery.cancelShipment_try rt svc waybill = Threw e -> carries_message e.
Proof.
  unfold Delhivery.cancelShipment_try, Delhivery.and_then.
  destruct (Delhivery.makeRequest rt svc _ _ _) as [response|e0] eqn:E0.
  - destruct (js_truthy (Delhivery.response_field response "success"));
      [discriminate|].
    destruct (Delhivery.js_get response "error") as [err|e1] eqn:E1;
      [discriminate|].
    intros H. injection H as <-. eapply js_get_throws, E1.
  - intros H. injection H as <-. eapply makeRequest_throws, E0.
Qed.

(** X16. [cancelShipment] never throws: it answers [{success:true,
    message}] only when the courier's response body has a truthy
    [success], the message being the courier's or, failing that,
    'Shipment cancelled successfully'; in every other case it answers
    [{success:false, error}] with a truthy [error]. *)
Theorem cancelShipment_outcomes (rt : Delhivery.Runtime)
  (svc : Delhivery.DelhiveryService) (waybill : string) :
  let r := Delhivery.cancelShipment rt svc waybill in
  (Delhivery.cancel_success r = true /\ Delhivery.cancel_error r = None /\
   exists url config body,
     Delhivery.axios rt url config = Delhivery.AxiosResolved body /\
     js_truthy (Delhivery.js_get_opt body "success") = true /\
     Delhivery.cancel_message r =
       Some (Delhivery.js_or (Delhivery.js_get_opt body "message")
                             (JStr "Shipment cancelled successfully")) /\
     js_truthy (Delhivery.js_or (Delhivery.js_get_opt body "message")
                                (JStr "Shipment cancelled successfully"))
     = true) \/
  (Delhivery.cancel_success r = false /\ Delhivery.cancel_message r = None /\
   exists v, Delhivery.cancel_error r = Some v /\ js_truthy v = true).
Proof.
  simpl. unfold Delhivery.cancelShipment.
  destruct (Delhivery.cancelShipment_try rt svc waybill) as [r|e] eqn:E.
  - unfold Delhivery.cancelShipment_try, Delhivery.and_then in E.
    destruct (Delhivery.makeRequest rt svc _ _ _) as [body|e0] eqn:E0;
      [|discriminate].
    destruct (makeRequest_resolved _ _ _ _ _ _ E0) as (url & config & Hax).
    destruct (js_truthy (Delhivery.response_field body "success")) eqn:Es.
    + left. injection E as <-. simpl. repeat split.
      exists url, config, body. split; [exact Hax|].
      split; [|split; [reflexivity|now apply js_or_truthy]].
      unfold Delhivery.response_field in Es.
      destruct (js_truthy body) eqn:Eb; [exact Es|congruence].
    + right. destruct (Delhivery.js_get body "error") as [err|e1];
        [|discriminate].
      injection E as <-. simpl. repeat split.
      eexists. split; [reflexivity|]. now apply js_or_truthy.
  - right. simpl. repeat split.
    destruct (cancelShipment_try_throws rt svc waybill e E) as (m & -> & Hm).
    eexists. split; [reflexivity|]. simpl.
    now destruct (String.eqb_spec m "").
Qed.

Lemma makeRequest_answer (rt : Delhivery.Runtime)
  (svc : Delhivery.DelhiveryService) (endpoint : string)
  (method : Delhivery.Method) (data : option Delhivery.RequestBody)
  (body : JValue) :
  (forall url config, Delhivery.axios rt url config = Delhivery.AxiosResolved body) ->
  Delhivery.makeRequest rt svc endpoint method data = Returned body.
Proof. intros H. unfold Delhivery.makeRequest. now rewrite H. Qed.


(** X17. An empty or otherwise falsy response body ([null], [false], [0],
    the empty string) is an error for each operation, under its own
    message: 'Invalid response format from Delhivery' for a shipment, 'No
    tracking data found' for a tracking, and for a cancellation 'Failed
    to cancel shipment', or the TypeError of reading [error] off [null]. *)
Theorem falsy_body_is_an_error (rt : Delhivery.Runtime)
  (svc : Delhivery.DelhiveryService)
  (shipmentData : Delhivery.DelhiveryShipmentRequest) (waybill : string)
  (body : JValue) :
  (forall url config, Delhivery.axios rt url config = Delhivery.AxiosResolved body) ->
  js_truthy body = false ->
  Delhivery.createShipment rt svc shipmentData =
    Delhivery.mkDelhiveryShipmentResponse false []
      (Some (JStr "Invalid response format from Delhivery")) /\
  Delhivery.trackShipment rt svc waybill =
    Delhivery.mkDelhiveryTrackingResponse false []
      (Some "No tracking data found") /\
  Delhivery.cancelShipment rt svc waybill =
    Delhivery.mkCancelResponse false None
      (Some (JStr (match body with
                   | JNull => "Cannot read properties of null (reading 'error')"
                   | JUndefined =>
                       "Cannot read properties of undefined (reading 'error')"
                   | _ => "Failed to cancel shipment"
                   end))).
Proof.
  intros Hax Hf.
  assert (Hfield : forall k, Delhivery.response_field body k = body).
  { intros k. unfold Delhivery.response_field. now rewrite Hf. }
  repeat split.
  - unfold Delhivery.createShipment, Delhivery.createShipment_try.
    rewrite (makeRequest_answer _ _ _ _ _ _ Hax). simpl.
    rewrite !Hfield, Hf. reflexivity.
  - unfold Delhivery.trackShipment, Delhivery.trackShipment_try.
    rewrite (makeRequest_answer _ _ _ _ _ _ Hax). simpl.
    rewrite !Hfield, Hf. reflexivity.
  - unfold Delhivery.cancelShipment, Delhivery.cancelShipment_try.
    rewrite (makeRequest_answer _ _ _ _ _ _ Hax). simpl.
    rewrite !Hfield, Hf.
    destruct body as [| |b|n|s|l|l]; simpl in Hf |- *; try discriminate Hf;
      reflexivity.
Qed.

Lemma falsy_body_is_an_error_witness :
  Delhivery.cancelShipment (courier_answering JNull) test_service "WB123" =
  Delhivery.mkCancelResponse false None
    (Some (JStr "Cannot read properties of null (reading 'error')")).
Proof.
  apply (falsy_body_is_an_error (courier_answering JNull) test_service
           test_request "WB123" JNull).
  - intros url config. reflexivity.
  - reflexivity.
Defined.



Lemma serviceable_spec (v : JValue) :
  Delhivery.strict_eq_string v "true" || Delhivery.strict_eq_true v = true <->
  v = JStr "true" \/ v = JBool true.
Proof.
  destruct v as [| |b|n|s|l|l]; simpl;
    try (split; [discriminate|intros [H|H]; discriminate H]).
  - destruct b; split; auto; try discriminate.
    intros [H|H]; discriminate H.
  - rewrite orb_false_r. split.
    + intros H. left. f_equal. now apply String.eqb_eq.
    + intros [H|H]; [|discriminate H]. injection H as ->. reflexivity.
Qed.

Lemma normalize_package_packs (entry : JValue) (pkg : Delhivery.Package) :
  Delhivery.normalize_package entry = Returned pkg -> packs entry pkg.
Proof.
  intros H.
  assert (Hnn : nullish entry = false).
  { destruct entry; try reflexivity; discriminate H. }
  unfold Delhivery.normalize_package in H.
  rewrite !(js_get_not_nullish _ _ Hnn) in H. simpl in H.
  injection H as <-. unfold packs. simpl.
  repeat (split; [reflexivity|]).
  apply serviceable_spec.
Qed.

(** X19. When [createShipment] succeeds, its packages answer one by one,
    in order, to the entries of the courier's [packages]: the same
    waybill, reference, COD amount, payment mode, status and message, and
    [serviceable] true exactly when the courier sent the string ['true']
    or the boolean [true]. *)
Theorem createShipment_packages_answer (rt : Delhivery.Runtime)
  (svc : Delhivery.DelhiveryService)
  (shipmentData : Delhivery.DelhiveryShipmentRequest) :
  Delhivery.success (Delhivery.createShipment rt svc shipmentData) = true ->
  exists url config body entries,
    Delhivery.axios rt url config = Delhivery.AxiosResolved body /\
    Delhivery.js_get_opt body "packages" = JArr entries /\
    Forall2 packs entries
      (Delhivery.packages (Delhivery.createShipment rt svc shipmentData)).
Proof.
  unfold Delhivery.createShipment.
  destruct (Delhivery.createShipment_try rt svc shipmentData) as [r|e] eqn:E;
    [|discriminate].
  unfold Delhivery.createShipment_try, Delhivery.and_then in E.
  destruct (Delhivery.makeRequest rt svc _ _ _) as [body|e0] eqn:E0;
    [|discriminate].
  destruct (makeRequest_resolved _ _ _ _ _ _ E0) as (url & config & Hax).
  destruct (js_truthy (Delhivery.response_field body "packages")
            && Delhivery.js_gt_zero rt _) eqn:Epk.
  - destruct (Delhivery.packages_map _) as [ps|e1] eqn:E1; [|discriminate].
    injection E as <-. simpl. intros _.
    apply andb_prop in Epk. destruct Epk as [Htr _].
    assert (Hbody : Delhivery.response_field body "packages"
                    = Delhivery.js_get_opt body "packages").
    { unfold Delhivery.response_field in Htr |- *.
      destruct (js_truthy body) eqn:Eb; [reflexivity|congruence]. }
    unfold Delhivery.packages_map in E1.
    destruct (Delhivery.response_field body "packages")
      as [| | | | |entries|] eqn:Edata; try discriminate.
    exists url, config, body, entries.
    split; [exact Hax|]. split; [now rewrite <- Hbody|].
    apply map_outcome_Forall2 in E1.
    eapply Forall2_impl; [|exact E1].
    intros x y. apply normalize_package_packs.
  - destruct (js_truthy (Delhivery.response_field body "error"));
      [|discriminate].
    injection E as <-. simpl. discriminate.
Qed.

Lemma createShipment_packages_answer_witness :
  exists url config body entries,
    Delhivery.axios accepting_courier url config = Delhivery.AxiosResolved body /\
    Delhivery.js_get_opt body "packages" = JArr entries /\
    Forall2 packs entries
      (Delhivery.packages
         (Delhivery.createShipment accepting_courier test_service test_request)).
Proof.
  apply (createShipment_packages_answer accepting_courier test_service
           test_request).
  reflexivity.
Defined.

Lemma makeRequest_agree (rt rt' : Delhivery.Runtime)
  (svc : Delhivery.DelhiveryService) (endpoint : string)
  (method : Delhivery.Method) (data : option Delhivery.RequestBody) :
  Delhivery.axios rt (Delhivery.baseURL svc ++ endpoint)
    (request_config svc method data)
  = Delhivery.axios rt' (Delhivery.baseURL svc ++ endpoint)
      (request_config svc method data) ->
  Delhivery.makeRequest rt svc endpoint method data
  = Delhivery.makeRequest rt' svc endpoint method data.
Proof.
  unfold Delhivery.makeRequest, request_config.
  destruct method; simpl; intros ->; reflexivity.
Qed.

Lemma js_gt_zero_agree (rt rt' : Delhivery.Runtime) (v : JValue) :
  (forall s, Delhivery.string_gt_zero rt s = Delhivery.string_gt_zero rt' s) ->
  Delhivery.js_gt_zero rt v = Delhivery.js_gt_zero rt' v.
Proof. intros H. destruct v; simpl; auto. Qed.

(** X20. Each operation consults the network through one request only: a
    POST of the shipment data to [/api/cmu/create.json], a GET without
    data of [/api/v1/packages/json/<waybill>], a POST of the waybill and
    the reason 'Order cancelled by customer' to [/api/p/edit], each under
    the service's base URL with the token, JSON content type and a
    timeout of 30000 ms.  Two networks that answer that request alike
    give the same result. *)
Theorem one_request_per_operation (rt rt' : Delhivery.Runtime)
  (svc : Delhivery.DelhiveryService) :
  (forall s, Delhivery.string_gt_zero rt s = Delhivery.string_gt_zero rt' s) ->
  (forall shipmentData,
      Delhivery.axios rt (Delhivery.baseURL svc ++ "/api/cmu/create.json")
        (request_config svc Delhivery.POST
           (Some (Delhivery.ShipmentBody shipmentData)))
      = Delhivery.axios rt' (Delhivery.baseURL svc ++ "/api/cmu/create.json")
          (request_config svc Delhivery.POST
             (Some (Delhivery.ShipmentBody shipmentData))) ->
      Delhivery.createShipment rt svc shipmentData
      = Delhivery.createShipment rt' svc shipmentData) /\
  (forall waybill,
      Delhivery.axios rt
        (Delhivery.baseURL svc ++ "/api/v1/packages/json/" ++ waybill)
        (request_config svc Delhivery.GET None)
      = Delhivery.axios rt'
          (Delhivery.baseURL svc ++ "/api/v1/packages/json/" ++ waybill)
          (request_config svc Delhivery.GET None) ->
      Delhivery.trackShipment rt svc waybill
      = Delhivery.trackShipment rt' svc waybill) /\
  (forall waybill,
      Delhivery.axios rt (Delhivery.baseURL svc ++ "/api/p/edit")
        (request_config svc Delhivery.POST
           (Some (Delhivery.CancelBody waybill "Order cancelled by customer")))
      = Delhivery.axios rt' (Delhivery.baseURL svc ++ "/api/p/edit")
          (request_config svc Delhivery.POST
             (Some (Delhivery.CancelBody waybill "Order cancelled by customer"))) ->
      Delhivery.cancelShipment rt svc waybill
      = Delhivery.cancelShipment rt' svc waybill).
Proof.
  intros Hs. repeat split.
  - intros shipmentData H.
    unfold Delhivery.createShipment, Delhivery.createShipment_try.
    rewrite (makeRequest_agree rt rt' svc Delhivery.CREATE_PACKAGE
               Delhivery.POST _ H).
    destruct (Delhivery.makeRequest rt' svc _ _ _) as [body|e]; simpl;
      [|reflexivity].
    now rewrite (js_gt_zero_agree rt rt' _ Hs).
  - intros waybill H.
    unfold Delhivery.trackShipment, Delhivery.trackShipment_try.
    rewrite (makeRequest_agree rt rt' svc (Delhivery.TRACK_PACKAGE ++ waybill)
               Delhivery.GET None H).
    destruct (Delhivery.makeRequest rt' svc _ _ _) as [body|e]; simpl;
      [|reflexivity].
    now rewrite (js_gt_zero_agree rt rt' _ Hs).
  - intros waybill H.
    unfold Delhivery.cancelShipment, Delhivery.cancelShipment_try.
    now rewrite (makeRequest_agree rt rt' svc Delhivery.CANCEL_PACKAGE
                   Delhivery.POST _ H).
Qed.

Lemma one_request_per_operation_witness :
  Delhivery.trackShipment (courier_answering tracking_body) test_service "WB123"
  = Delhivery.trackShipment
      (Delhivery.mkRuntime
         (fun url _ =>
            if (url =? "https://track.delhivery.com/api/v1/packages/json/WB123")%string
            then Delhivery.AxiosResolved tracking_body
            else Delhivery.AxiosRejected JNull)
         (fun _ => false))
      test_service "WB123".
Proof.
  apply (proj1 (proj2 (one_request_per_operation
                         (courier_answering tracking_body)
                         (Delhivery.mkRuntime
                            (fun url _ =>
                               if (url =? "https://track.delhivery.com/api/v1/packages/json/WB123")%string
                               then Delhivery.AxiosResolved tracking_body
                               else Delhivery.AxiosRejected JNull)
                            (fun _ => false))
                         test_service (fun s => eq_refl)))).
  reflexivity.
Defined.

(** X21. [getDelhiveryService] builds the service once: without an
    instance and without an API key (missing or empty) it throws
    'Delhivery API key is required' and keeps no instance; with a key it
    builds one, taking 'https://track.delhivery.com' and 'ElegantJewelry'
    where the base URL or the client name is missing or empty; and once
    there is an instance every later call returns that instance. *)
Theorem getDelhiveryService_builds_once
  (base key client : option string) :
  (truthy_string key = false ->
   Delhivery.getDelhiveryService base key client None =
   (Threw (ThrownError "Delhivery API key is required"), None)) /\
  (forall k,
      key = Some k -> k <> "" ->
      exists svc,
        Delhivery.getDelhiveryService base key client None
        = (Returned svc, Some svc) /\
        Delhivery.apiKey svc = k /\
        Delhivery.baseURL svc =
          (match base with
           | Some b => if (b =? "")%string then "https://track.delhivery.com" else b
           | None => "https://track.delhivery.com"
           end) /\
        Delhivery.clientName svc =
          (match client with
           | Some c => if (c =? "")%string then "ElegantJewelry" else c
           | None => "ElegantJewelry"
           end)) /\
  (forall svc base' key' client',
      Delhivery.getDelhiveryService base' key' client' (Some svc)
      = (Returned svc, Some svc)).
Proof.
  repeat split.
  - unfold Delhivery.getDelhiveryService, Delhivery.new_DelhiveryService.
    destruct key as [k|]; simpl.
    + destruct (String.eqb_spec k ""); simpl; [|discriminate].
      intros _.
      destruct (truthy_string base), (truthy_string client);
        try destruct base; try destruct client; reflexivity.
    + intros _.
      destruct (truthy_string base), (truthy_string client);
        try destruct base; try destruct client; reflexivity.
  - intros k -> Hk.
    unfold Delhivery.getDelhiveryService, Delhivery.new_DelhiveryService.
    destruct (String.eqb_spec k ""); [contradiction|].
    destruct base as [b|], client as [c|]; simpl;
      try destruct (String.eqb_spec b ""); try destruct (String.eqb_spec c "");
      simpl; eexists; repeat split.
Qed.

Lemma getDelhiveryService_builds_once_witness :
  Delhivery.getDelhiveryService (Some "") (Some "") None None =
  (Threw (ThrownError "Delhivery API key is required"), None).
Proof.
  apply (proj1 (getDelhiveryService_builds_once (Some "") (Some "") None)).
  reflexivity.
Defined.

(** ** Errors of [createPaymentOrder] *)

(** X22. [createPaymentOrder] names its failures: 'Order not found' when
    the order has no row; the gateway's own error when the gateway
    refuses; the message of what the gateway threw when it throws. In
    each case nothing is written. *)
Theorem createPaymentOrder_failures
  (env : Env) (data : CreatePaymentOrderData) (w : World) :
  dbFault env (OrderFindUnique (cpo_orderId data)) = None ->
  (order_by_id w (cpo_orderId data) = None ->
   createPaymentOrder env data w = (CreateFailed (JStr "Order not found"), w)) /\
  (forall o err,
      order_by_id w (cpo_orderId data) = Some o ->
      (forall req, createRazorpayOrder env req = RazorpayRefused err) ->
      createPaymentOrder env data w = (CreateFailed err, w)) /\
  (forall o e,
      order_by_id w (cpo_orderId data) = Some o ->
      (forall req, createRazorpayOrder env req = RazorpayThrew e) ->
      createPaymentOrder env data w =
      (CreateFailed
         (JStr (error_message_or "Failed to create payment order" e)), w)).
Proof.
  intros F.
  unfold createPaymentOrder, createPaymentOrder_try, bind, order_findUnique.
  rewrite db_call_no_fault by exact F.
  repeat split.
  - intros ->. reflexivity.
  - intros o err -> Hgw. cbv beta iota. now rewrite Hgw.
  - intros o e -> Hgw. cbv beta iota. now rewrite Hgw.
Qed.

Lemma createPaymentOrder_failures_witness :
  createPaymentOrder (test_env shipped no_faults)
    (mkCreatePaymentOrderData 7 2000 "INR" "buyer@example.com" "A Buyer" None)
    shop
  = (CreateFailed (JStr "Order not found"), shop).
Proof.
  apply (proj1 (createPaymentOrder_failures (test_env shipped no_faults)
                  (mkCreatePaymentOrderData 7 2000 "INR" "buyer@example.com"
                     "A Buyer" None) shop eq_refl)).
  reflexivity.
Defined.

(** ** Empty and broken lists from the courier *)

Lemma falsy_has_no_truthy_property (v : JValue) (k : string) :
  js_truthy v = false -> js_truthy (Delhivery.js_get_opt v k) = false.
Proof.
  destruct v as [| |b|n|s|l|l]; simpl; try reflexivity; try discriminate.
  intros H. apply negb_false_iff in H. apply String.eqb_eq in H. subst s.
  now destruct (k =? "length")%string.
Qed.

Lemma response_field_truthy (body : JValue) (k : string) (v : JValue) :
  Delhivery.js_get_opt body k = v -> js_truthy v = true ->
  Delhivery.response_field body k = v.
Proof.
  intros Hk Hv. unfold Delhivery.response_field.
  destruct (js_truthy body) eqn:Eb; [exact Hk|].
  pose proof (falsy_has_no_truthy_property body k Eb) as H.
  rewrite Hk in H. congruence.
Qed.

Lemma map_outcome_blocked {A B : Type} (f : A -> Outcome B) (l : list A) :
  (exists x e, In x l /\ f x = Threw e) ->
  exists e, Delhivery.map_outcome f l = Threw e.
Proof.
  induction l as [|y rest IH]; intros (x & e & Hin & Hx); [destruct Hin|].
  simpl. destruct (f y) as [b|e'] eqn:E; simpl; [|eauto].
  destruct Hin as [->|Hin]; [congruence|].
  destruct IH as [e'' He'']; [eauto|]. rewrite He''. simpl. eauto.
Qed.

(** X23. An empty list is not a success: a body whose [packages] is empty
    and that carries no [error] makes [createShipment] answer 'Invalid
    response format from Delhivery', and a body whose [ShipmentData] is
    empty makes [trackShipment] answer 'No tracking data found'. *)
Theorem empty_lists_are_failures (rt : Delhivery.Runtime)
  (svc : Delhivery.DelhiveryService)
  (shipmentData : Delhivery.DelhiveryShipmentRequest) (waybill : string)
  (body : JValue) :
  (forall url config, Delhivery.axios rt url config = Delhivery.AxiosResolved body) ->
  (Delhivery.js_get_opt body "packages" = JArr [] ->
   js_truthy (Delhivery.js_get_opt body "error") = false ->
   Delhivery.createShipment rt svc shipmentData =
   Delhivery.mkDelhiveryShipmentResponse false []
     (Some (JStr "Invalid response format from Delhivery"))) /\
  (Delhivery.js_get_opt body "ShipmentData" = JArr [] ->
   Delhivery.trackShipment rt svc waybill =
   Delhivery.mkDelhiveryTrackingResponse false []
     (Some "No tracking data found")).
Proof.
  intros Hax.
  pose proof (response_field_truthy body) as Hbody.
  split.
  - intros Hp He.
    unfold Delhivery.createShipment, Delhivery.createShipment_try.
    rewrite (makeRequest_answer _ _ _ _ _ _ Hax). simpl.
    rewrite (Hbody "packages" (JArr []) Hp eq_refl). simpl.
    assert (Herr : js_truthy (Delhivery.response_field body "error") = false).
    { unfold Delhivery.response_field.
      destruct (js_truthy body) eqn:Eb; [exact He|exact Eb]. }
    now rewrite Herr.
  - intros Hd.
    unfold Delhivery.trackShipment, Delhivery.trackShipment_try.
    rewrite (makeRequest_answer _ _ _ _ _ _ Hax). simpl.
    now rewrite (Hbody "ShipmentData" (JArr []) Hd eq_refl).
Qed.

Lemma empty_lists_are_failures_witness :
  Delhivery.trackShipment (courier_answering (JObj [("ShipmentData", JArr [])]))
    test_service "WB123"
  = Delhivery.mkDelhiveryTrackingResponse false []
      (Some "No tracking data found").
Proof.
  apply (proj2 (empty_lists_are_failures
                  (courier_answering (JObj [("ShipmentData", JArr [])]))
                  test_service test_request "WB123"
                  (JObj [("ShipmentData", JArr [])])
                  (fun _ _ => eq_refl))).
  reflexivity.
Defined.

(** X24. One bad entry spoils the list: when any entry of the courier's
    [packages] (of its [ShipmentData]) is [null], the whole call answers
    [{success:false}] with no package (no shipment) at all, the good
    entries included. *)
Theorem null_entry_fails_the_call (rt : Delhivery.Runtime)
  (svc : Delhivery.DelhiveryService)
  (shipmentData : Delhivery.DelhiveryShipmentRequest) (waybill : string)
  (body : JValue) (entries : list JValue) :
  (forall url config, Delhivery.axios rt url config = Delhivery.AxiosResolved body) ->
  In JNull entries ->
  (Delhivery.js_get_opt body "packages" = JArr entries ->
   Delhivery.success (Delhivery.createShipment rt svc shipmentData) = false /\
   Delhivery.packages (Delhivery.createShipment rt svc shipmentData) = []) /\
  (Delhivery.js_get_opt body "ShipmentData" = JArr entries ->
   Delhivery.trk_success (Delhivery.trackShipment rt svc waybill) = false /\
   Delhivery.shipment_data (Delhivery.trackShipment rt svc waybill) = []).
Proof.
  intros Hax Hnull.
  assert (Hbody : forall k, Delhivery.js_get_opt body k = JArr entries ->
                            Delhivery.response_field body k = JArr entries).
  { intros k Hk. now apply response_field_truthy. }
  assert (Hlen : Delhivery.js_gt_zero rt
                   (Delhivery.js_get_opt (JArr entries) "length") = true).
  { simpl. apply Z.ltb_lt. destruct entries; [destruct Hnull|]. simpl. lia. }
  split.
  - intros Hp.
    unfold Delhivery.createShipment, Delhivery.createShipment_try.
    rewrite (makeRequest_answer _ _ _ _ _ _ Hax). simpl.
    rewrite (Hbody _ Hp), Hlen. simpl.
    destruct (map_outcome_blocked Delhivery.normalize_package entries)
      as [e He]; [exists JNull; eexists; split; [exact Hnull|reflexivity]|].
    rewrite He. simpl. split; reflexivity.
  - intros Hd.
    unfold Delhivery.trackShipment, Delhivery.trackShipment_try.
    rewrite (makeRequest_answer _ _ _ _ _ _ Hax). simpl.
    rewrite (Hbody _ Hd), Hlen. simpl.
    destruct (map_outcome_blocked Delhivery.normalize_shipment entries)
      as [e He]; [exists JNull; eexists; split; [exact Hnull|reflexivity]|].
    rewrite He. simpl. split; reflexivity.
Qed.

Lemma null_entry_fails_the_call_witness :
  Delhivery.success
    (Delhivery.createShipment
       (courier_answering
          (JObj [("packages", JArr [JObj [("waybill", JStr "WB123")]; JNull])]))
       test_service test_request) = false /\
  Delhivery.packages
    (Delhivery.createShipment
       (courier_answering
          (JObj [("packages", JArr [JObj [("waybill", JStr "WB123")]; JNull])]))
       test_service test_request) = [].
Proof.
  apply (proj1 (null_entry_fails_the_call
                  (courier_answering
                     (JObj [("packages",
                             JArr [JObj [("waybill", JStr "WB123")]; JNull])]))
                  test_service test_request "WB123"
                  (JObj [("packages",
                          JArr [JObj [("waybill", JStr "WB123")]; JNull])])
                  [JObj [("waybill", JStr "WB123")]; JNull]
                  (fun _ _ => eq_refl) (or_intror (or_introl eq_refl)))).
  reflexivity.
Defined.

Lemma getPaymentDetails_reads_first_payment_witness :
  find (fun q => payment_orderId q =? 1001) (payments shop)
  = Some (payment1 PENDING None) /\
  payment_orderId (payment1 PENDING None) = 1001 /\
  Some order1001 = order_by_id shop 1001 /\
  [item1] = items_of_order shop 1001.
Proof.
  apply (proj2 (getPaymentDetails_reads_first_payment
                  (test_env shipped no_faults) 1001 shop)
           (payment1 PENDING None) (Some order1001) [item1]).
  reflexivity.
Defined.
